(** * PCA9641 bus master selector: arbitration, select and release

    A shallow embedding of [i2c-mux-pca9641.c].  The driver talks to the
    outside world through three channels only: raw SMBus transfers on the
    parent adapter ([__i2c_smbus_xfer]), the [jiffies] counter, and the
    two delay primitives [udelay] and [msleep].  All three are foreign to
    the driver; they are gathered in a [kernel] record of oracles, and the
    driver functions are written in a small state monad over the driver's
    private data, the oracle positions and a log of what was issued. *)

From Stdlib Require Import ZArith Lia Bool.
From stdpp Require Import base list gmap.

Local Open Scope Z_scope.

(** ** Register map and bit masks *)

Definition BIT (n : Z) : Z := Z.shiftl 1 n.

Definition PCA9641_CONTR    : Z := 0x01.
Definition PCA9641_STATUS   : Z := 0x02.
Definition PCA9641_RT       : Z := 0x03.
Definition PCA9641_AUTO_INC : Z := 0x80.

Definition PCA9641_CTL_LOCK_REQ       : Z := BIT 0.
Definition PCA9641_CTL_LOCK_GRANT     : Z := BIT 1.
Definition PCA9641_CTL_BUS_CONNECT    : Z := BIT 2.
Definition PCA9641_CTL_BUS_INIT       : Z := BIT 3.
Definition PCA9641_CTL_SMBUS_SWRST    : Z := BIT 4.
Definition PCA9641_CTL_IDLE_TIMER_DIS : Z := BIT 5.
Definition PCA9641_CTL_SMBUS_DIS      : Z := BIT 6.
Definition PCA9641_CTL_PRIORITY       : Z := BIT 7.

Definition CONNECT : Z :=
  Z.lor (Z.lor PCA9641_CTL_LOCK_REQ PCA9641_CTL_LOCK_GRANT) PCA9641_CTL_BUS_CONNECT.

Definition connected (x : Z) : bool := Z.land x CONNECT =? CONNECT.
Definition requested (x : Z) : bool := Z.land x CONNECT =? PCA9641_CTL_LOCK_REQ.

(** Reserve time, in ms. *)
Definition RESERVE_TIME : Z := 20.

(** Arbitration retry delays, in us. *)
Definition SELECT_DELAY_SHORT : Z := 0.
Definition SELECT_DELAY_LONG  : Z := 1000.

(** Conversion to [u8], as done by the C parameter and field types. *)
Definition u8 (x : Z) : Z := x mod 256.

(** ** The kernel side *)

(** One SMBus transfer as the driver builds it: direction, command byte,
    protocol size and payload.  For [I2C_SMBUS_I2C_BLOCK_DATA] the payload
    is [block[1..block[0]]]. *)
Inductive smbus_request : Type :=
| ReadByteData  (command : Z)
| WriteByteData (command : Z) (val : Z)
| WriteI2CBlock (command : Z) (block : list Z).

(** What a transfer gives back: the [int] result of [__i2c_smbus_xfer]
    and the byte it leaves in [data.byte] (meaningful for reads). *)
Record smbus_reply : Type := { xfer_ret : Z; xfer_byte : Z }.

Inductive event : Type :=
| Xfer   (rq : smbus_request) (rp : smbus_reply)
| Udelay (usecs : Z)
| Msleep (msecs : Z).

(** The kernel the driver is built for and runs in.  [HZ],
    [BITS_PER_LONG] and [ETIMEDOUT] are configuration and architecture
    constants of the kernel headers.  [smbus_xfer n rq] is the outcome of
    the [n]-th transfer issued on the adapter when that transfer is [rq];
    [jiffies n] is the value the [n]-th read of the tick counter sees. *)
Record kernel : Type := {
  HZ            : Z;
  BITS_PER_LONG : Z;
  ETIMEDOUT     : Z;
  smbus_xfer    : nat -> smbus_request -> smbus_reply;
  jiffies       : nat -> Z
}.

(** Conversion to [unsigned long]. *)
Definition ulong (k : kernel) (x : Z) : Z := x mod 2 ^ BITS_PER_LONG k.

(** Conversion of an [unsigned long] to [long]. *)
Definition to_long (k : kernel) (x : Z) : Z :=
  let m := 2 ^ BITS_PER_LONG k in
  if x mod m <? m / 2 then x mod m else x mod m - m.

(** [time_after_eq(a, b)] of [linux/jiffies.h]: [(long)(a - b) >= 0]. *)
Definition time_after_eq (k : kernel) (a b : Z) : bool :=
  0 <=? to_long k (ulong k (a - b)).

(** Arbitration timeout, in jiffies. *)
Definition ARB_TIMEOUT (k : kernel) : Z := Z.quot (HZ k) 4.

(** ** Driver state *)

(** [select_timeout] is the one mutable field of [struct pca9641]; its
    other field, [client], is set once in probe and names the device all
    transfers go to, which is the device [smbus_xfer] answers for.
    [xfers] and [ticks] count the transfers issued and the reads of
    [jiffies] so far; [bus_log] records transfers and delays in the order
    they were issued. *)
Record state : Type := {
  select_timeout : Z;
  xfers          : nat;
  ticks          : nat;
  bus_log        : list event
}.

Definition M (A : Type) : Type := state -> A * state.

Definition ret {A} (a : A) : M A := fun s => (a, s).

Definition bind {A B} (m : M A) (f : A -> M B) : M B :=
  fun s => let (a, s') := m s in f a s'.

Notation "x <- m ;; f" := (bind m (fun x => f))
  (at level 100, m at next level, right associativity).
Notation "m ;;; f" := (bind m (fun _ => f))
  (at level 100, right associativity).

Definition log_event (e : event) (s : state) : state :=
  {| select_timeout := select_timeout s;
     xfers := xfers s;
     ticks := ticks s;
     bus_log := bus_log s ++ [e] |}.

Definition __i2c_smbus_xfer (k : kernel) (rq : smbus_request) : M smbus_reply :=
  fun s =>
    let rp := smbus_xfer k (xfers s) rq in
    (rp, {| select_timeout := select_timeout s;
            xfers := S (xfers s);
            ticks := ticks s;
            bus_log := bus_log s ++ [Xfer rq rp] |}).

Definition udelay (usecs : Z) : M unit := fun s => (tt, log_event (Udelay usecs) s).
Definition msleep (msecs : Z) : M unit := fun s => (tt, log_event (Msleep msecs) s).

Definition read_jiffies (k : kernel) : M Z :=
  fun s =>
    (ulong k (jiffies k (ticks s)),
     {| select_timeout := select_timeout s;
        xfers := xfers s;
        ticks := S (ticks s);
        bus_log := bus_log s |}).

Definition get_select_timeout : M Z := fun s => (select_timeout s, s).

Definition set_select_timeout (d : Z) : M unit :=
  fun s =>
    (tt, {| select_timeout := d;
            xfers := xfers s;
            ticks := ticks s;
            bus_log := bus_log s |}).

(** ** Register access *)

Definition pca9641_reg_write (k : kernel) (command val : Z) : M Z :=
  rp <- __i2c_smbus_xfer k (WriteByteData (u8 command) (u8 val)) ;;
  ret (xfer_ret rp).

Definition pca9641_reg_write_multi (k : kernel) (command v1 v2 : Z) : M Z :=
  rp <- __i2c_smbus_xfer k (WriteI2CBlock (u8 command) [u8 v1; u8 v2]) ;;
  ret (xfer_ret rp).

(** [return ret ?: data.byte;] *)
Definition pca9641_reg_read (k : kernel) (command : Z) : M Z :=
  rp <- __i2c_smbus_xfer k (ReadByteData (u8 command)) ;;
  ret (if xfer_ret rp =? 0 then u8 (xfer_byte rp) else xfer_ret rp).

(** ** Arbitration management *)

(** Release bus.  The result of the write is dropped ([void]). *)
Definition pca9641_release_bus (k : kernel) : M unit :=
  pca9641_reg_write k PCA9641_CONTR 0x00 ;;; ret tt.

(** Channel arbitration.  Result: [<0] error, [0] bus not acquired,
    [1] bus acquired. *)
Definition pca9641_arbitrate (k : kernel) : M Z :=
  reg <- pca9641_reg_read k PCA9641_CONTR ;;
  if reg <? 0 then ret reg
  else if connected reg then ret 1
  else if requested reg then
    set_select_timeout SELECT_DELAY_LONG ;;; ret 0
  else
    pca9641_reg_write_multi k
      (Z.lor PCA9641_CONTR PCA9641_AUTO_INC)
      (Z.lor (Z.lor PCA9641_CTL_LOCK_REQ PCA9641_CTL_BUS_CONNECT)
             PCA9641_CTL_IDLE_TIMER_DIS)
      RESERVE_TIME ;;;
    set_select_timeout SELECT_DELAY_SHORT ;;;
    ret 0.

(** The body of the [do ... while] loop of [pca9641_select_chan]:
    [Some r] when the body returns [r] from the function, [None] when
    control reaches the loop condition. *)
Definition select_body (k : kernel) : M (option Z) :=
  r <- pca9641_arbitrate k ;;
  if negb (r =? 0) then ret (Some (if r <? 0 then r else 0))
  else
    d <- get_select_timeout ;;
    (if d =? SELECT_DELAY_SHORT then udelay d else msleep (Z.quot d 1000)) ;;;
    ret None.

(** The loop itself.  [fuel] bounds the number of passes through the
    body; [None] means the bound was reached with the loop still
    running. *)
Fixpoint select_loop (fuel : nat) (k : kernel) (timeout : Z) (s : state)
  : option (Z * state) :=
  match fuel with
  | O => None
  | S fuel' =>
      match select_body k s with
      | (Some r, s1) => Some (r, s1)
      | (None, s1) =>
          let (j, s2) := read_jiffies k s1 in
          (* while (time_is_after_eq_jiffies(timeout)) *)
          if time_after_eq k timeout j
          then select_loop fuel' k timeout s2
          else Some (- ETIMEDOUT k, s2)
      end
  end.

Definition pca9641_select_chan (fuel : nat) (k : kernel) (chan : Z) (s : state)
  : option (Z * state) :=
  let (j, s0) := read_jiffies k s in
  select_loop fuel k (ulong k (j + ARB_TIMEOUT k)) s0.

Definition pca9641_release_chan (k : kernel) (chan : Z) : M Z :=
  pca9641_release_bus k ;;; ret 0.

(** ** The register file of the chip

    The arbiter is hardware on the other end of the adapter.  For the
    statements that speak of the register state a transfer leaves behind,
    the log is replayed on a map from register address to content: a write
    the adapter reports as done ([xfer_ret = 0]) stores its byte, a block
    write with [PCA9641_AUTO_INC] in the command stores its bytes at
    consecutive addresses, anything else leaves the map as it is. *)




(** ** Observations on a log *)

Definition is_read (e : event) : bool :=
  match e with Xfer (ReadByteData _) _ => true | _ => false end.

Definition is_write (e : event) : bool :=
  match e with
  | Xfer (WriteByteData _ _) _ | Xfer (WriteI2CBlock _ _) _ => true
  | _ => false
  end.

Definition is_delay (e : event) : bool :=
  match e with Udelay _ | Msleep _ => true | _ => false end.

Definition count_events (p : event -> bool) (log : list event) : nat :=
  length (List.filter p log).

(** A flag of the control register (one of the [PCA9641_CTL_*] masks) is
    set in [x]. *)
Definition has_flag (x mask : Z) : bool := negb (Z.land x mask =? 0).

(** The state right after transfer [rq] was answered by [rp]. *)
Definition after_xfer (rq : smbus_request) (rp : smbus_reply) (s : state) : state :=
  {| select_timeout := select_timeout s;
     xfers := S (xfers s);
     ticks := ticks s;
     bus_log := bus_log s ++ [Xfer rq rp] |}.

(** The two transfers [pca9641_arbitrate] can issue. *)
Definition read_contr : smbus_request := ReadByteData PCA9641_CONTR.

Definition write_request : smbus_request :=
  WriteI2CBlock (Z.lor PCA9641_CONTR PCA9641_AUTO_INC)
    [Z.lor (Z.lor PCA9641_CTL_LOCK_REQ PCA9641_CTL_BUS_CONNECT)
           PCA9641_CTL_IDLE_TIMER_DIS;
     RESERVE_TIME].

(** The value [pca9641_reg_read] hands to its caller for reply [rp]. *)
Definition reg_of (rp : smbus_reply) : Z :=
  if xfer_ret rp =? 0 then u8 (xfer_byte rp) else xfer_ret rp.

(** What [s'] has logged beyond [s]. *)
Definition new_events (s s' : state) : list event :=
  drop (length (bus_log s)) (bus_log s').

(** ** The polling loop seen from outside *)

(** The events of one pass through the loop body, by the way the pass
    ends: it returns from the function after the read, or it saw a
    pending request and sleeps, or it wrote the request and spins. *)
Inductive iteration : list event -> Prop :=
| iteration_return (rp : smbus_reply) :
    reg_of rp < 0 \/ connected (reg_of rp) = true ->
    iteration [Xfer read_contr rp]
| iteration_wait (rp : smbus_reply) :
    0 <= reg_of rp -> connected (reg_of rp) = false ->
    requested (reg_of rp) = true ->
    iteration [Xfer read_contr rp; Msleep 1]
| iteration_request (rp wp : smbus_reply) :
    0 <= reg_of rp -> connected (reg_of rp) = false ->
    requested (reg_of rp) = false ->
    iteration [Xfer read_contr rp; Xfer write_request wp; Udelay 0].

(** No read of CONTROL ever fails or shows the bus connected. *)
Definition never_connected (k : kernel) : Prop :=
  forall n : nat,
    xfer_ret (smbus_xfer k n read_contr) = 0 /\
    connected (u8 (xfer_byte (smbus_xfer k n read_contr))) = false.

(** The deadline [pca9641_select_chan] computes when entered in [s]. *)
Definition deadline (k : kernel) (s : state) : Z :=
  ulong k (ulong k (jiffies k (ticks s)) + ARB_TIMEOUT k).

(** The [n]-th read of [jiffies] is past [timeout]: the loop condition
    [time_is_after_eq_jiffies(timeout)] is false there. *)
Definition expired (k : kernel) (timeout : Z) (n : nat) : bool :=
  negb (time_after_eq k timeout (ulong k (jiffies k n))).

Definition with_select_timeout (d : Z) (s : state) : state :=
  {| select_timeout := d;
     xfers := xfers s;
     ticks := ticks s;
     bus_log := bus_log s |}.

(** ** Readings of the specification that the driver does not meet *)

(** Every failed transfer of [pca9641_arbitrate], read or write, becomes
    its result. *)
Definition transfer_errors_returned : Prop :=
  forall (k : kernel) (s s' : state) (r : Z)
         (rq : smbus_request) (rp : smbus_reply),
    pca9641_arbitrate k s = (r, s') ->
    In (Xfer rq rp) (new_events s s') ->
    xfer_ret rp < 0 ->
    r = xfer_ret rp.

(** [select_timeout] is reset by every call of [pca9641_select_chan]:
    what the field holds afterwards does not depend on what it held
    before. *)
Definition select_resets_timeout : Prop :=
  forall (fuel : nat) (k : kernel) (chan : Z) (s : state) (d1 d2 : Z)
         (r1 r2 : Z) (s1 s2 : state),
    pca9641_select_chan fuel k chan (with_select_timeout d1 s) = Some (r1, s1) ->
    pca9641_select_chan fuel k chan (with_select_timeout d2 s) = Some (r2, s2) ->
    select_timeout s1 = select_timeout s2.

(** Only the first pass through the loop body writes to the chip. *)
Definition writes_on_first_iteration_only : Prop :=
  forall (fuel : nat) (k : kernel) (chan : Z) (s s' : state) (r : Z)
         (blocks : list (list event)),
    pca9641_select_chan fuel k chan s = Some (r, s') ->
    bus_log s' = bus_log s ++ concat blocks ->
    Forall iteration blocks ->
    forall (i : nat) (b : list event),
      blocks !! i = Some b -> (0 < i)%nat ->
      count_events is_write b = 0%nat.


(** ** Concrete kernels and states

    Used to run the driver on explicit inputs. *)

(** A 64-bit kernel with [HZ = 250] and the generic [ETIMEDOUT]. *)
Definition kernel_of (reply : nat -> smbus_request -> smbus_reply)
    (clock : nat -> Z) : kernel :=
  {| HZ := 250; BITS_PER_LONG := 64; ETIMEDOUT := 110;
     smbus_xfer := reply; jiffies := clock |}.

(** Private data as [i2c_mux_alloc] leaves it (zeroed), nothing issued. *)
Definition fresh_state : state :=
  {| select_timeout := 0; xfers := 0; ticks := 0; bus_log := [] |}.

Definition ack (byte : Z) : smbus_reply := {| xfer_ret := 0; xfer_byte := byte |}.

(** Every transfer succeeds and every read sees [byte]; one tick per
    read of [jiffies]. *)
Definition steady_kernel (byte : Z) : kernel :=
  kernel_of (fun _ _ => ack byte) (fun n => Z.of_nat n).

Definition nack (err : Z) : smbus_reply := {| xfer_ret := err; xfer_byte := 0 |}.

(** Reads see 0x00; every write fails with -EIO. *)
Definition write_fault_kernel : kernel :=
  kernel_of (fun _ rq => match rq with ReadByteData _ => ack 0x00 | _ => nack (-5) end)
            (fun n => Z.of_nat n).

(** The chip is idle at the first poll, shows the request latched but
    not granted at the second (LOCK_REQ | BUS_CONNECT | IDLE_TIMER_DIS),
    and the bus connected from the third on.  Transfers 0, 2 and 4 are
    the reads. *)
Definition granted_on_third_poll : kernel :=
  kernel_of (fun n _ => if (n <? 2)%nat then ack 0x00
                        else if (n <? 4)%nat then ack 0x25
                        else ack 0x07)
            (fun n => Z.of_nat n).

(** The chip is idle at the first poll and shows the bus connected from
    the second on.  Transfers 0 and 2 are the reads. *)
Definition granted_on_second_poll : kernel :=
  kernel_of (fun n _ => if (n <? 2)%nat then ack 0x00 else ack 0x07)
            (fun n => Z.of_nat n).

(** What a run of [pca9641_select_chan] shows: its result, the number
    of reads and of writes it issued, and the retry delay it leaves. *)
Definition run_summary (out : option (Z * state)) : option (Z * nat * nat * Z) :=
  match out with
  | Some (r, s') =>
      Some (r, count_events is_read (bus_log s'),
            count_events is_write (bus_log s'), select_timeout s')
  | None => None
  end.


(** The chip is idle at the first poll, shows a request pending at the
    second, and the read of the third poll fails with -ENXIO.
    Transfers 0, 2 and 3 are the reads. *)
Definition contended_then_fault : kernel :=
  kernel_of (fun n _ => if (n <? 2)%nat then ack 0x00
                        else if (n =? 2)%nat then ack 0x01
                        else nack (-6))
            (fun n => Z.of_nat n).

(** Every read of CONTROL fails with -ENXIO. *)
Definition read_fault_kernel : kernel :=
  kernel_of (fun _ _ => nack (-6)) (fun n => Z.of_nat n).

(** ** Probe

    [pca9641_probe] deals with the I2C core beside the adapter: the
    capability query, the segment lock, the allocation of the mux core
    and the registration of the one downstream adapter.  Their answers
    are gathered in [i2c_core], with the two errno constants the
    function returns; what the function does is a list of [probe_event]
    in the order of the calls, the transfers of [pca9641_release_bus]
    among them. *)

Record i2c_core : Type := {
  ENODEV          : Z;
  ENOMEM          : Z;
  (* i2c_check_functionality(adap, I2C_FUNC_SMBUS_BYTE_DATA) *)
  has_byte_data   : bool;
  (* i2c_mux_alloc(...): [None] is NULL, [Some d] a mux core whose
     private [select_timeout] holds [d] *)
  mux_alloc       : option Z;
  (* i2c_mux_add_adapter(muxc, 0, 0, 0) *)
  mux_add_adapter : Z
}.

Inductive probe_event : Type :=
| LockSegment
| UnlockSegment
| OnBus (e : event)
| MuxAlloc (max_adapters : Z)
| SetClientdata
| MuxAddAdapter (force_nr chan_id class : Z)
| DevInfo.

Definition pca9641_probe (k : kernel) (c : i2c_core) (s : state)
  : Z * state * list probe_event :=
  if negb (has_byte_data c) then (- ENODEV c, s, [])
  else
    (* i2c_lock_bus; pca9641_release_bus; i2c_unlock_bus *)
    let (_, s1) := pca9641_release_bus k s in
    let locked := [LockSegment] ++ map OnBus (new_events s s1) ++ [UnlockSegment] in
    match mux_alloc c with
    | None => (- ENOMEM c, s1, locked ++ [MuxAlloc 1])
    | Some d =>
        let s2 := with_select_timeout d s1 in
        let ret := mux_add_adapter c in
        if negb (ret =? 0)
        then (ret, s2, locked ++ [MuxAlloc 1; SetClientdata; MuxAddAdapter 0 0 0])
        else (0, s2,
              locked ++ [MuxAlloc 1; SetClientdata; MuxAddAdapter 0 0 0; DevInfo])
    end.

Definition is_bus_access (e : probe_event) : bool :=
  match e with OnBus _ => true | _ => false end.

Definition is_locking (e : probe_event) : bool :=
  match e with LockSegment | UnlockSegment => true | _ => false end.

Definition probe_count (p : probe_event -> bool) (tr : list probe_event) : nat :=
  length (List.filter p tr).

(** ** More observations *)

(** The events [pca9641_select_chan] is able to issue. *)
Definition select_event (e : event) : Prop :=
  e = Udelay 0 \/ e = Msleep 1 \/
  exists rp : smbus_reply, e = Xfer read_contr rp \/ e = Xfer write_request rp.

(** The two values the driver ever stores in [select_timeout]. *)
Definition retry_delay (d : Z) : Prop :=
  d = SELECT_DELAY_SHORT \/ d = SELECT_DELAY_LONG.

(** Ticks gone by between two values of the counter, wrap-around
    included. *)
Definition elapsed (k : kernel) (t0 j : Z) : Z := ulong k (j - t0).

(** LOCK_REQ alone at every poll, while the tick counter, ten ticks
    short of wrapping at entry, wraps during the call. *)
Definition wrapping_kernel : kernel :=
  kernel_of (fun _ _ => ack 0x01) (fun n => 2 ^ 64 - 10 + Z.of_nat n).

(** An I2C core on which every step of probe succeeds. *)
Definition willing_core : i2c_core :=
  {| ENODEV := 19; ENOMEM := 12; has_byte_data := true;
     mux_alloc := Some 0; mux_add_adapter := 0 |}.

(** * Bit-level reading of the two predicates *)

Lemma CONNECT_val : CONNECT = 7.
Proof. reflexivity. Qed.

Lemma testbit_7_high (n : Z) : 3 <= n -> Z.testbit 7 n = false.
Proof.
  intros Hn. change 7 with (Z.ones 3). apply Z.ones_spec_high. lia.
Qed.

Lemma land_7_eq (x y : Z) :
  0 <= y < 8 ->
  (Z.land x 7 = y <->
   Z.testbit x 0 = Z.testbit y 0 /\
   Z.testbit x 1 = Z.testbit y 1 /\
   Z.testbit x 2 = Z.testbit y 2).
Proof.
  intros Hy. split.
  - intros <-. rewrite !Z.land_spec. cbn. rewrite !andb_true_r. done.
  - intros (H0 & H1 & H2). apply Z.bits_inj'. intros n Hn.
    rewrite Z.land_spec.
    destruct (Z.eq_dec n 0) as [->|]; [cbn; rewrite andb_true_r; done|].
    destruct (Z.eq_dec n 1) as [->|]; [cbn; rewrite andb_true_r; done|].
    destruct (Z.eq_dec n 2) as [->|]; [cbn; rewrite andb_true_r; done|].
    rewrite testbit_7_high by lia. rewrite andb_false_r.
    symmetry. apply Z.bits_above_log2; [lia|].
    assert (Z.log2 y < 3); [|lia].
    destruct (Z.eq_dec y 0) as [->|]; [cbn; lia|].
    apply Z.log2_lt_pow2; lia.
Qed.

Lemma connected_bits (x : Z) :
  connected x =
  Z.testbit x 0 && Z.testbit x 1 && Z.testbit x 2.
Proof.
  unfold connected. rewrite CONNECT_val.
  destruct (Z.eqb_spec (Z.land x 7) 7) as [E|E].
  - apply land_7_eq in E; [|lia]. destruct E as (-> & -> & ->). reflexivity.
  - destruct (Z.testbit x 0) eqn:B0, (Z.testbit x 1) eqn:B1,
      (Z.testbit x 2) eqn:B2; try reflexivity.
    exfalso. apply E. apply land_7_eq; [lia|]. rewrite B0, B1, B2. done.
Qed.

Lemma requested_bits (x : Z) :
  requested x =
  Z.testbit x 0 && negb (Z.testbit x 1) && negb (Z.testbit x 2).
Proof.
  unfold requested. rewrite CONNECT_val.
  change PCA9641_CTL_LOCK_REQ with 1.
  destruct (Z.eqb_spec (Z.land x 7) 1) as [E|E].
  - apply land_7_eq in E; [|lia]. destruct E as (-> & -> & ->). reflexivity.
  - destruct (Z.testbit x 0) eqn:B0, (Z.testbit x 1) eqn:B1,
      (Z.testbit x 2) eqn:B2; try reflexivity.
    exfalso. apply E. apply land_7_eq; [lia|]. rewrite B0, B1, B2. done.
Qed.

Lemma connected_requested_exclusive (x : Z) :
  connected x = true -> requested x = false.
Proof.
  rewrite connected_bits, requested_bits.
  destruct (Z.testbit x 0), (Z.testbit x 1), (Z.testbit x 2); done.
Qed.

Lemma has_flag_BIT (x n : Z) : 0 <= n -> has_flag x (BIT n) = Z.testbit x n.
Proof.
  intros Hn. unfold has_flag, BIT. rewrite Z.shiftl_1_l.
  destruct (Z.testbit x n) eqn:B.
  - apply negb_true_iff, Z.eqb_neq. intros E.
    assert (Z.testbit (Z.land x (2 ^ n)) n = true) as T.
    { rewrite Z.land_spec, B, Z.pow2_bits_true; done. }
    rewrite E, Z.bits_0 in T. done.
  - apply negb_false_iff, Z.eqb_eq, Z.bits_inj'. intros m Hm.
    rewrite Z.land_spec, Z.bits_0, Z.pow2_bits_eqb by done.
    destruct (Z.eqb_spec n m) as [<-|]; [by rewrite B | apply andb_false_r].
Qed.

Lemma connected_flags (x : Z) :
  connected x =
  has_flag x PCA9641_CTL_LOCK_REQ && has_flag x PCA9641_CTL_LOCK_GRANT
  && has_flag x PCA9641_CTL_BUS_CONNECT.
Proof.
  unfold PCA9641_CTL_LOCK_REQ, PCA9641_CTL_LOCK_GRANT, PCA9641_CTL_BUS_CONNECT.
  rewrite !has_flag_BIT by lia. apply connected_bits.
Qed.

Lemma requested_flags (x : Z) :
  requested x =
  has_flag x PCA9641_CTL_LOCK_REQ && negb (has_flag x PCA9641_CTL_LOCK_GRANT)
  && negb (has_flag x PCA9641_CTL_BUS_CONNECT).
Proof.
  unfold PCA9641_CTL_LOCK_REQ, PCA9641_CTL_LOCK_GRANT, PCA9641_CTL_BUS_CONNECT.
  rewrite !has_flag_BIT by lia. apply requested_bits.
Qed.

(** * One call of [pca9641_arbitrate] *)

Lemma u8_small (x : Z) : 0 <= x < 256 -> u8 x = x.
Proof. intros H. unfold u8. apply Z.mod_small. lia. Qed.

Lemma reg_read_contr (k : kernel) (s : state) :
  pca9641_reg_read k PCA9641_CONTR s =
  (let rp := smbus_xfer k (xfers s) read_contr in
   (if xfer_ret rp =? 0 then u8 (xfer_byte rp) else xfer_ret rp,
    after_xfer read_contr rp s)).
Proof. reflexivity. Qed.

Lemma reg_write_multi_request (k : kernel) (s : state) :
  pca9641_reg_write_multi k
    (Z.lor PCA9641_CONTR PCA9641_AUTO_INC)
    (Z.lor (Z.lor PCA9641_CTL_LOCK_REQ PCA9641_CTL_BUS_CONNECT)
           PCA9641_CTL_IDLE_TIMER_DIS)
    RESERVE_TIME s =
  (let rp := smbus_xfer k (xfers s) write_request in
   (xfer_ret rp, after_xfer write_request rp s)).
Proof. reflexivity. Qed.

(** The four ways through [pca9641_arbitrate], by what the read gave. *)
Lemma arbitrate_cases (k : kernel) (s : state) :
  let rp := smbus_xfer k (xfers s) read_contr in
  let reg := if xfer_ret rp =? 0 then u8 (xfer_byte rp) else xfer_ret rp in
  let s1 := after_xfer read_contr rp s in
  pca9641_arbitrate k s =
    if reg <? 0 then (reg, s1)
    else if connected reg then (1, s1)
    else if requested reg then
      (0, {| select_timeout := SELECT_DELAY_LONG; xfers := xfers s1;
             ticks := ticks s1; bus_log := bus_log s1 |})
    else
      let wp := smbus_xfer k (xfers s1) write_request in
      (0, {| select_timeout := SELECT_DELAY_SHORT; xfers := S (xfers s1);
             ticks := ticks s1;
             bus_log := bus_log s1 ++ [Xfer write_request wp] |}).
Proof.
  intros rp reg s1. unfold pca9641_arbitrate, bind at 1.
  rewrite reg_read_contr. cbv zeta. fold rp. fold reg. fold s1.
  clearbody reg s1. cbv beta iota.
  destruct (reg <? 0); [reflexivity|].
  destruct (connected reg); [reflexivity|].
  destruct (requested reg); [reflexivity|].
  unfold bind at 1. rewrite reg_write_multi_request. reflexivity.
Qed.

(** The same when the read succeeded with the 8-bit value [v]. *)
Lemma arbitrate_ack (k : kernel) (s : state) (v : Z) :
  0 <= v < 256 ->
  smbus_xfer k (xfers s) read_contr = ack v ->
  pca9641_arbitrate k s =
    let s1 := after_xfer read_contr (ack v) s in
    if connected v then (1, s1)
    else if requested v then
      (0, {| select_timeout := SELECT_DELAY_LONG; xfers := xfers s1;
             ticks := ticks s1; bus_log := bus_log s1 |})
    else
      (0, {| select_timeout := SELECT_DELAY_SHORT; xfers := S (xfers s1);
             ticks := ticks s1;
             bus_log :=
               bus_log s1 ++
               [Xfer write_request (smbus_xfer k (xfers s1) write_request)] |}).
Proof.
  intros Hv Hrd. rewrite arbitrate_cases. cbv zeta. rewrite Hrd.
  cbn [xfer_ret xfer_byte ack]. rewrite Z.eqb_refl, (u8_small v Hv).
  destruct (Z.ltb_spec v 0) as [?|_]; [lia | reflexivity].
Qed.

(** C1.  Whatever 8-bit value the read of CONTROL returns, if LOCK_REQ,
    LOCK_GRANT and BUS_CONNECT are all set in it then [pca9641_arbitrate]
    returns 1 (acquired); the read is the only transfer it issued, so
    there is no write, and [select_timeout] is left alone. *)
Theorem arbitrate_connected (k : kernel) (s : state) (v : Z) :
  0 <= v < 256 ->
  smbus_xfer k (xfers s) read_contr = ack v ->
  has_flag v PCA9641_CTL_LOCK_REQ = true ->
  has_flag v PCA9641_CTL_LOCK_GRANT = true ->
  has_flag v PCA9641_CTL_BUS_CONNECT = true ->
  connected v = true /\
  exists s',
    pca9641_arbitrate k s = (1, s') /\
    bus_log s' = bus_log s ++ [Xfer read_contr (ack v)] /\
    count_events is_write (bus_log s') = count_events is_write (bus_log s) /\
    select_timeout s' = select_timeout s.
Proof.
  intros Hv Hrd F0 F1 F2.
  assert (connected v = true) as C by (rewrite connected_flags, F0, F1, F2; done).
  split; [exact C|].
  pose proof (arbitrate_ack k s v Hv Hrd) as A.
  cbv zeta in A. rewrite C in A. eexists. split; [exact A|].
  cbn [after_xfer bus_log select_timeout]. split; [done|]. split; [|done].
  unfold count_events. rewrite !List.filter_app, !List.length_app. cbn. lia.
Qed.

Lemma arbitrate_connected_witness :
  connected 0x07 = true /\
  exists s',
    pca9641_arbitrate (steady_kernel 0x07) fresh_state = (1, s') /\
    bus_log s' = bus_log fresh_state ++ [Xfer read_contr (ack 0x07)] /\
    count_events is_write (bus_log s') =
      count_events is_write (bus_log fresh_state) /\
    select_timeout s' = select_timeout fresh_state.
Proof.
  apply (arbitrate_connected (steady_kernel 0x07) fresh_state 0x07);
    [lia | reflexivity | reflexivity | reflexivity | reflexivity].
Defined.

(** C2.  Whatever 8-bit value the read of CONTROL returns, if of the
    three bits LOCK_REQ, LOCK_GRANT, BUS_CONNECT exactly LOCK_REQ is set
    then [pca9641_arbitrate] returns 0 (not acquired), leaves
    [select_timeout] at [SELECT_DELAY_LONG] = 1000, and the read is the
    only transfer it issued (no write). *)
Theorem arbitrate_requested (k : kernel) (s : state) (v : Z) :
  0 <= v < 256 ->
  smbus_xfer k (xfers s) read_contr = ack v ->
  has_flag v PCA9641_CTL_LOCK_REQ = true ->
  has_flag v PCA9641_CTL_LOCK_GRANT = false ->
  has_flag v PCA9641_CTL_BUS_CONNECT = false ->
  requested v = true /\
  exists s',
    pca9641_arbitrate k s = (0, s') /\
    select_timeout s' = SELECT_DELAY_LONG /\
    SELECT_DELAY_LONG = 1000 /\
    bus_log s' = bus_log s ++ [Xfer read_contr (ack v)] /\
    count_events is_write (bus_log s') = count_events is_write (bus_log s).
Proof.
  intros Hv Hrd F0 F1 F2.
  assert (requested v = true) as R by (rewrite requested_flags, F0, F1, F2; done).
  assert (connected v = false) as C by (rewrite connected_flags, F0, F1, F2; done).
  split; [exact R|].
  pose proof (arbitrate_ack k s v Hv Hrd) as A.
  cbv zeta in A. rewrite C, R in A. eexists. split; [exact A|].
  cbn [after_xfer bus_log select_timeout]. do 3 (split; [done|]).
  unfold count_events. rewrite !List.filter_app, !List.length_app. cbn. lia.
Qed.

Lemma arbitrate_requested_witness :
  requested 0x21 = true /\
  exists s',
    pca9641_arbitrate (steady_kernel 0x21) fresh_state = (0, s') /\
    select_timeout s' = SELECT_DELAY_LONG /\
    SELECT_DELAY_LONG = 1000 /\
    bus_log s' = bus_log fresh_state ++ [Xfer read_contr (ack 0x21)] /\
    count_events is_write (bus_log s') =
      count_events is_write (bus_log fresh_state).
Proof.
  apply (arbitrate_requested (steady_kernel 0x21) fresh_state 0x21);
    [lia | reflexivity | reflexivity | reflexivity | reflexivity].
Defined.

(** C3.  Whatever 8-bit value the read of CONTROL returns, if it is
    neither [connected] nor [requested] then [pca9641_arbitrate] issues,
    after the read, exactly one write: a block write to
    CONTROL | AUTO_INC (0x81) carrying LOCK_REQ | BUS_CONNECT |
    IDLE_TIMER_DIS (0x25) and the reserve time 20.  It leaves
    [select_timeout] at [SELECT_DELAY_SHORT] = 0 and returns 0 (not
    acquired), whatever the write reports. *)
Theorem arbitrate_idle (k : kernel) (s : state) (v : Z) :
  0 <= v < 256 ->
  smbus_xfer k (xfers s) read_contr = ack v ->
  connected v = false ->
  requested v = false ->
  exists s',
    pca9641_arbitrate k s = (0, s') /\
    select_timeout s' = SELECT_DELAY_SHORT /\
    SELECT_DELAY_SHORT = 0 /\
    bus_log s' =
      bus_log s ++
      [Xfer read_contr (ack v);
       Xfer write_request (smbus_xfer k (S (xfers s)) write_request)] /\
    write_request = WriteI2CBlock 0x81 [0x25; 20] /\
    count_events is_write (bus_log s') =
      S (count_events is_write (bus_log s)).
Proof.
  intros Hv Hrd C R.
  pose proof (arbitrate_ack k s v Hv Hrd) as A.
  cbv zeta in A. rewrite C, R in A. eexists. split; [exact A|].
  cbn [after_xfer bus_log select_timeout xfers].
  split; [done|]. split; [done|]. split; [by rewrite <- app_assoc|].
  split; [reflexivity|].
  unfold count_events. rewrite !List.filter_app, !List.length_app. cbn. lia.
Qed.

Lemma arbitrate_idle_witness :
  exists s',
    pca9641_arbitrate (steady_kernel 0x00) fresh_state = (0, s') /\
    select_timeout s' = SELECT_DELAY_SHORT /\
    SELECT_DELAY_SHORT = 0 /\
    bus_log s' =
      bus_log fresh_state ++
      [Xfer read_contr (ack 0x00);
       Xfer write_request
         (smbus_xfer (steady_kernel 0x00) (S (xfers fresh_state)) write_request)] /\
    write_request = WriteI2CBlock 0x81 [0x25; 20] /\
    count_events is_write (bus_log s') =
      S (count_events is_write (bus_log fresh_state)).
Proof.
  apply (arbitrate_idle (steady_kernel 0x00) fresh_state 0x00);
    [lia | reflexivity | reflexivity | reflexivity].
Defined.

(** * One pass through the loop body *)

Lemma select_body_eq (k : kernel) (s : state) :
  select_body k s =
  let (r, s0) := pca9641_arbitrate k s in
  if negb (r =? 0) then (Some (if r <? 0 then r else 0), s0)
  else
    (None,
     log_event
       (if select_timeout s0 =? SELECT_DELAY_SHORT
        then Udelay (select_timeout s0)
        else Msleep (Z.quot (select_timeout s0) 1000)) s0).
Proof.
  unfold select_body, bind at 1.
  destruct (pca9641_arbitrate k s) as [r s0].
  destruct (negb (r =? 0)); [reflexivity|].
  unfold bind, get_select_timeout.
  destruct (select_timeout s0 =? SELECT_DELAY_SHORT); reflexivity.
Qed.

(** * Transport errors *)

Lemma arbitrate_read_error (k : kernel) (s : state) :
  let rp := smbus_xfer k (xfers s) read_contr in
  xfer_ret rp < 0 ->
  pca9641_arbitrate k s = (xfer_ret rp, after_xfer read_contr rp s).
Proof.
  intros rp He. rewrite arbitrate_cases. cbv zeta. fold rp.
  destruct (Z.eqb_spec (xfer_ret rp) 0) as [E|_]; [lia|].
  destruct (Z.ltb_spec (xfer_ret rp) 0) as [_|?]; [reflexivity | lia].
Qed.

Lemma select_body_read_error (k : kernel) (s : state) :
  let rp := smbus_xfer k (xfers s) read_contr in
  xfer_ret rp < 0 ->
  select_body k s = (Some (xfer_ret rp), after_xfer read_contr rp s).
Proof.
  intros rp He. unfold select_body, bind.
  rewrite (arbitrate_read_error k s He). fold rp.
  destruct (Z.eqb_spec (xfer_ret rp) 0) as [E|_]; [lia|].
  destruct (Z.ltb_spec (xfer_ret rp) 0) as [_|?]; [reflexivity | lia].
Qed.

(** C4, as amended.  A transport error on the read of CONTROL is the
    result of [pca9641_arbitrate] as it stands, and the loop of
    [pca9641_select_chan], on whichever pass this happens, returns that
    same error at once: nothing is issued after the failed read and the
    clock is not consulted again.  The result of the block write is not
    looked at: when the read shows the chip neither connected nor
    requested, [pca9641_arbitrate] returns 0 whatever the write
    reported, and select goes on polling: the pass ends in [udelay(0)]
    and the loop condition, and unless the deadline has passed the loop
    makes its next pass; the reply to the write shows in the log and
    nowhere else. *)
Theorem read_error_propagated (k : kernel) (s : state) (rp wp : smbus_reply) :
  smbus_xfer k (xfers s) read_contr = rp ->
  smbus_xfer k (S (xfers s)) write_request = wp ->
  (xfer_ret rp < 0 ->
     pca9641_arbitrate k s = (xfer_ret rp, after_xfer read_contr rp s) /\
     (forall (fuel : nat) (timeout : Z),
        select_loop (S fuel) k timeout s =
        Some (xfer_ret rp, after_xfer read_contr rp s)) /\
     (forall (fuel : nat) (chan : Z),
        pca9641_select_chan (S fuel) k chan s =
        Some (xfer_ret rp, after_xfer read_contr rp (snd (read_jiffies k s))))) /\
  (0 <= reg_of rp -> connected (reg_of rp) = false ->
   requested (reg_of rp) = false ->
     let written :=
       with_select_timeout SELECT_DELAY_SHORT
         (after_xfer write_request wp (after_xfer read_contr rp s)) in
     let checked := snd (read_jiffies k (log_event (Udelay 0) written)) in
     pca9641_arbitrate k s = (0, written) /\
     select_body k s = (None, log_event (Udelay 0) written) /\
     (forall (fuel : nat) (timeout : Z),
        select_loop (S fuel) k timeout s =
        if time_after_eq k timeout (ulong k (jiffies k (ticks s)))
        then select_loop fuel k timeout checked
        else Some (- ETIMEDOUT k, checked)) /\
     (forall (fuel : nat) (timeout : Z) (r : Z) (s' : state),
        select_loop (S fuel) k timeout s = Some (r, s') ->
        r = - ETIMEDOUT k \/
        (expired k timeout (ticks s) = false /\
         select_loop fuel k timeout checked = Some (r, s')))).
Proof.
  intros Hrd Hwr. split.
  - intros He. subst rp. split; [|split].
    + apply arbitrate_read_error. exact He.
    + intros fuel timeout. cbn [select_loop].
      rewrite (select_body_read_error k s He). reflexivity.
    + intros fuel chan. unfold pca9641_select_chan.
      cbn [read_jiffies select_loop snd].
      rewrite select_body_read_error; [reflexivity | exact He].
  - intros Hr C R. cbv zeta.
    assert (pca9641_arbitrate k s =
            (0, with_select_timeout SELECT_DELAY_SHORT
                  (after_xfer write_request wp (after_xfer read_contr rp s))))
      as HA.
    { rewrite arbitrate_cases. cbv zeta. rewrite Hrd. fold (reg_of rp).
      destruct (Z.ltb_spec (reg_of rp) 0) as [?|_]; [lia|].
      rewrite C, R. cbn [after_xfer xfers]. rewrite Hwr. reflexivity. }
    assert (select_body k s =
            (None, log_event (Udelay 0)
                     (with_select_timeout SELECT_DELAY_SHORT
                        (after_xfer write_request wp
                           (after_xfer read_contr rp s))))) as HB.
    { rewrite select_body_eq, HA. reflexivity. }
    assert (forall (fuel : nat) (timeout : Z),
              select_loop (S fuel) k timeout s =
              if time_after_eq k timeout (ulong k (jiffies k (ticks s)))
              then select_loop fuel k timeout
                     (snd (read_jiffies k
                        (log_event (Udelay 0)
                           (with_select_timeout SELECT_DELAY_SHORT
                              (after_xfer write_request wp
                                 (after_xfer read_contr rp s))))))
              else Some (- ETIMEDOUT k,
                         snd (read_jiffies k
                           (log_event (Udelay 0)
                              (with_select_timeout SELECT_DELAY_SHORT
                                 (after_xfer write_request wp
                                    (after_xfer read_contr rp s))))))) as HL.
    { intros fuel timeout. cbn [select_loop]. rewrite HB. reflexivity. }
    split; [exact HA|]. split; [exact HB|]. split; [exact HL|].
    intros fuel timeout r s' Hrun. rewrite HL in Hrun. unfold expired.
    destruct (time_after_eq k timeout (ulong k (jiffies k (ticks s)))).
    + right. split; [reflexivity | exact Hrun].
    + left. by injection Hrun as <- _.
Qed.

Lemma read_error_propagated_witness :
  (pca9641_arbitrate read_fault_kernel fresh_state =
     (-6, after_xfer read_contr (nack (-6)) fresh_state) /\
   (forall (fuel : nat) (timeout : Z),
      select_loop (S fuel) read_fault_kernel timeout fresh_state =
      Some (-6, after_xfer read_contr (nack (-6)) fresh_state)) /\
   (forall (fuel : nat) (chan : Z),
      pca9641_select_chan (S fuel) read_fault_kernel chan fresh_state =
      Some (-6, after_xfer read_contr (nack (-6))
                  (snd (read_jiffies read_fault_kernel fresh_state))))) /\
  (let written :=
     with_select_timeout SELECT_DELAY_SHORT
       (after_xfer write_request (nack (-5))
          (after_xfer read_contr (ack 0x00) fresh_state)) in
   let checked :=
     snd (read_jiffies write_fault_kernel (log_event (Udelay 0) written)) in
   pca9641_arbitrate write_fault_kernel fresh_state = (0, written) /\
   select_body write_fault_kernel fresh_state =
     (None, log_event (Udelay 0) written) /\
   (forall (fuel : nat) (timeout : Z),
      select_loop (S fuel) write_fault_kernel timeout fresh_state =
      if time_after_eq write_fault_kernel timeout
           (ulong write_fault_kernel
              (jiffies write_fault_kernel (ticks fresh_state)))
      then select_loop fuel write_fault_kernel timeout checked
      else Some (- ETIMEDOUT write_fault_kernel, checked)) /\
   (forall (fuel : nat) (timeout : Z) (r : Z) (s' : state),
      select_loop (S fuel) write_fault_kernel timeout fresh_state =
        Some (r, s') ->
      r = - ETIMEDOUT write_fault_kernel \/
      (expired write_fault_kernel timeout (ticks fresh_state) = false /\
       select_loop fuel write_fault_kernel timeout checked = Some (r, s')))).
Proof.
  split.
  - apply (proj1 (read_error_propagated read_fault_kernel fresh_state
                    (nack (-6)) (nack (-6)) eq_refl eq_refl)).
    cbn. lia.
  - apply (proj2 (read_error_propagated write_fault_kernel fresh_state
                    (ack 0x00) (nack (-5)) eq_refl eq_refl));
      [by vm_compute | reflexivity | reflexivity].
Defined.

(** With every write failing and the chip idle throughout, a call of
    [pca9641_select_chan] polls and writes 63 times and ends in
    -ETIMEDOUT: none of the 63 failed writes ends it. *)
Example select_polls_through_write_errors :
  run_summary (pca9641_select_chan 63 write_fault_kernel 0 fresh_state) =
    Some (-110, 63%nat, 63%nat, SELECT_DELAY_SHORT) /\
  pca9641_select_chan 62 write_fault_kernel 0 fresh_state = None.
Proof. split; vm_compute; reflexivity. Qed.

(** C4, as stated, fails: with the chip idle and the block write failing
    with -5, [pca9641_arbitrate] returns 0, not -5. *)
Lemma write_error_not_returned :
  pca9641_arbitrate write_fault_kernel fresh_state =
    (0, with_select_timeout SELECT_DELAY_SHORT
          (after_xfer write_request (nack (-5))
             (after_xfer read_contr (ack 0x00) fresh_state))) /\
  ~ transfer_errors_returned.
Proof.
  split; [reflexivity|].
  intros H.
  specialize (H write_fault_kernel fresh_state _ 0 write_request (nack (-5)) eq_refl).
  assert (0 = -5); [|lia].
  apply H; [|cbn; lia].
  cbn. right. left. reflexivity.
Qed.

(** * The deadline *)

(** Away from wrap-around, a sample of [jiffies] is [expired] exactly
    when it is strictly after the entry time plus [ARB_TIMEOUT]. *)
Lemma expired_no_wrap (k : kernel) (t0 : Z) (n : nat) :
  0 < BITS_PER_LONG k ->
  0 <= t0 -> 0 <= ARB_TIMEOUT k ->
  t0 + ARB_TIMEOUT k < 2 ^ (BITS_PER_LONG k - 1) ->
  0 <= jiffies k n < 2 ^ (BITS_PER_LONG k - 1) ->
  expired k (ulong k (ulong k t0 + ARB_TIMEOUT k)) n =
  (t0 + ARB_TIMEOUT k <? jiffies k n).
Proof.
  intros Hb Ht0 Ha Hd Hj.
  set (h := 2 ^ (BITS_PER_LONG k - 1)) in *.
  assert (2 ^ BITS_PER_LONG k = 2 * h) as Hm.
  { unfold h. rewrite <- Z.pow_succ_r by lia. f_equal. lia. }
  assert (0 < h) as Hh by (apply Z.pow_pos_nonneg; lia).
  unfold expired, time_after_eq, to_long, ulong. rewrite Hm.
  rewrite (Z.mod_small t0) by lia.
  rewrite (Z.mod_small (t0 + ARB_TIMEOUT k)) by lia.
  rewrite (Z.mod_small (jiffies k n)) by lia.
  rewrite Z.mod_mod by lia.
  replace (2 * h / 2) with h by (rewrite Z.mul_comm, Z.div_mul; lia).
  set (d := t0 + ARB_TIMEOUT k - jiffies k n).
  destruct (Z.ltb_spec (t0 + ARB_TIMEOUT k) (jiffies k n)) as [Hlt|Hge].
  - assert (d mod (2 * h) = d + 2 * h) as ->.
    { symmetry. apply (Z.mod_unique_pos _ _ (-1)); unfold d; lia. }
    destruct (Z.ltb_spec (d + 2 * h) h) as [?|_]; [unfold d in *; lia|].
    apply negb_true_iff, Z.leb_gt. unfold d. lia.
  - rewrite (Z.mod_small d) by (unfold d; lia).
    destruct (Z.ltb_spec d h) as [_|?]; [|unfold d in *; lia].
    apply negb_false_iff, Z.leb_le. unfold d. lia.
Qed.

(** Across wrap-around: a sample of [jiffies] fails the loop test
    exactly when more than [ARB_TIMEOUT] ticks have gone by since
    entry. *)
Lemma expired_elapsed (k : kernel) (t0 : Z) (n : nat) :
  0 < BITS_PER_LONG k ->
  0 <= ARB_TIMEOUT k < 2 ^ (BITS_PER_LONG k - 1) ->
  elapsed k t0 (jiffies k n) < 2 ^ (BITS_PER_LONG k - 1) ->
  expired k (ulong k (ulong k t0 + ARB_TIMEOUT k)) n =
  (ARB_TIMEOUT k <? elapsed k t0 (jiffies k n)).
Proof.
  intros Hb Ha He.
  set (h := 2 ^ (BITS_PER_LONG k - 1)) in *.
  assert (2 ^ BITS_PER_LONG k = 2 * h) as Hm.
  { unfold h. rewrite <- Z.pow_succ_r by lia. f_equal. lia. }
  assert (0 < h) as Hh by (apply Z.pow_pos_nonneg; lia).
  set (A := ARB_TIMEOUT k) in *. set (j := jiffies k n) in *.
  unfold elapsed, ulong in He |- *. rewrite Hm in He |- *.
  set (e := (j - t0) mod (2 * h)) in *.
  assert (0 <= e < 2 * h) as Hrange by (apply Z.mod_pos_bound; lia).
  unfold expired, time_after_eq, to_long, ulong. rewrite Hm.
  replace (2 * h / 2) with h by (rewrite Z.mul_comm, Z.div_mul; lia).
  rewrite Z.mod_mod by lia. fold j.
  assert ((((t0 mod (2 * h) + A) mod (2 * h) - j mod (2 * h)) mod (2 * h)) =
          (A - e) mod (2 * h)) as ->.
  { unfold e.
    rewrite Zminus_mod_idemp_l, Zminus_mod_idemp_r, Zminus_mod_idemp_r.
    replace (t0 mod (2 * h) + A - j) with (t0 mod (2 * h) + (A - j)) by lia.
    rewrite Zplus_mod_idemp_l. f_equal. lia. }
  destruct (Z.ltb_spec A e) as [Hlt|Hge].
  - assert ((A - e) mod (2 * h) = A - e + 2 * h) as ->.
    { symmetry. apply (Z.mod_unique_pos _ _ (-1)); lia. }
    destruct (Z.ltb_spec (A - e + 2 * h) h) as [?|_]; [lia|].
    apply negb_true_iff, Z.leb_gt. lia.
  - rewrite (Z.mod_small (A - e)) by lia.
    destruct (Z.ltb_spec (A - e) h) as [_|?]; [|lia].
    apply negb_false_iff, Z.leb_le. lia.
Qed.

Lemma count_events_app (p : event -> bool) (l1 l2 : list event) :
  count_events p (l1 ++ l2) = (count_events p l1 + count_events p l2)%nat.
Proof. unfold count_events. by rewrite List.filter_app, List.length_app. Qed.

(** A pass through the body under [never_connected] reaches the loop
    condition, having read CONTROL once. *)
Lemma select_body_not_connected (k : kernel) (s : state) :
  never_connected k ->
  exists s1,
    select_body k s = (None, s1) /\
    ticks s1 = ticks s /\
    count_events is_read (bus_log s1) = S (count_events is_read (bus_log s)).
Proof.
  intros Hk. destruct (Hk (xfers s)) as [Hret Hc].
  unfold select_body, bind at 1. rewrite arbitrate_cases. cbv zeta.
  rewrite Hret. cbn [Z.eqb].
  set (v := u8 (xfer_byte (smbus_xfer k (xfers s) read_contr))) in *.
  assert (0 <= v) as Hv by (apply Z.mod_pos_bound; lia).
  destruct (Z.ltb_spec v 0) as [?|_]; [lia|]. rewrite Hc.
  destruct (requested v).
  - eexists. split; [reflexivity|]. split; [reflexivity|].
    cbn [msleep log_event bus_log after_xfer fst snd].
    rewrite !count_events_app. cbn. lia.
  - eexists. split; [reflexivity|]. split; [reflexivity|].
    cbn [udelay log_event bus_log after_xfer fst snd].
    rewrite !count_events_app. cbn. lia.
Qed.

Lemma select_loop_expired_now (k : kernel) (timeout : Z) (s : state) :
  never_connected k ->
  expired k timeout (ticks s) = true ->
  exists s' : state,
    (forall fuel : nat, (0 < fuel)%nat ->
       select_loop fuel k timeout s = Some (- ETIMEDOUT k, s')) /\
    ticks s' = S (ticks s) /\
    count_events is_read (bus_log s') = S (count_events is_read (bus_log s)).
Proof.
  intros Hk Hexp.
  destruct (select_body_not_connected k s Hk) as (s1 & Hb & Ht & Hr).
  exists (snd (read_jiffies k s1)). split; [|split].
  - intros [|fuel] Hf; [lia|]. cbn [select_loop]. rewrite Hb.
    cbn [read_jiffies snd]. rewrite Ht.
    unfold expired in Hexp. apply negb_true_iff in Hexp. rewrite Hexp.
    reflexivity.
  - cbn. by rewrite Ht.
  - cbn. exact Hr.
Qed.

Lemma select_loop_not_expired (k : kernel) (timeout : Z) (s : state) :
  never_connected k ->
  expired k timeout (ticks s) = false ->
  exists s2 : state,
    (forall fuel : nat,
       select_loop (S fuel) k timeout s = select_loop fuel k timeout s2) /\
    ticks s2 = S (ticks s) /\
    count_events is_read (bus_log s2) = S (count_events is_read (bus_log s)).
Proof.
  intros Hk Hexp.
  destruct (select_body_not_connected k s Hk) as (s1 & Hb & Ht & Hr).
  exists (snd (read_jiffies k s1)). split; [|split].
  - intros fuel. cbn [select_loop]. rewrite Hb.
    cbn [read_jiffies snd]. rewrite Ht.
    unfold expired in Hexp. apply negb_false_iff in Hexp. rewrite Hexp.
    reflexivity.
  - cbn. by rewrite Ht.
  - cbn. exact Hr.
Qed.

Lemma select_loop_expires (k : kernel) (timeout : Z) :
  never_connected k ->
  forall (n : nat) (s : state),
    expired k timeout (ticks s + n) = true ->
    exists (m : nat) (s' : state),
      (m <= n)%nat /\
      (forall i : nat, (i < m)%nat -> expired k timeout (ticks s + i) = false) /\
      expired k timeout (ticks s + m) = true /\
      (forall fuel : nat, (m < fuel)%nat ->
         select_loop fuel k timeout s = Some (- ETIMEDOUT k, s')) /\
      ticks s' = (ticks s + m + 1)%nat /\
      count_events is_read (bus_log s') =
        (count_events is_read (bus_log s) + m + 1)%nat.
Proof.
  intros Hk. induction n as [|n IH]; intros s Hexp;
    destruct (expired k timeout (ticks s)) eqn:Hnow.
  - destruct (select_loop_expired_now k timeout s Hk Hnow) as (s' & Hl & Ht & Hr).
    exists 0%nat, s'. rewrite Nat.add_0_r.
    repeat split; [lia | intros; lia | done | done | lia | lia].
  - rewrite Nat.add_0_r in Hexp. congruence.
  - destruct (select_loop_expired_now k timeout s Hk Hnow) as (s' & Hl & Ht & Hr).
    exists 0%nat, s'. rewrite Nat.add_0_r.
    repeat split; [lia | intros; lia | done | done | lia | lia].
  - destruct (select_loop_not_expired k timeout s Hk Hnow) as (s2 & Hl & Ht & Hr).
    destruct (IH s2) as (m & s' & Hm & Hbefore & Hat & Hrun & Ht' & Hr').
    { rewrite Ht. by replace (S (ticks s) + n)%nat with (ticks s + S n)%nat by lia. }
    exists (S m), s'. split; [lia|]. split; [|split; [|split; [|split]]].
    + intros [|i] Hi; [by rewrite Nat.add_0_r|].
      replace (ticks s + S i)%nat with (ticks s2 + i)%nat by lia.
      apply Hbefore. lia.
    + by replace (ticks s + S m)%nat with (ticks s2 + m)%nat by lia.
    + intros [|fuel] Hf; [lia|]. rewrite Hl. apply Hrun. lia.
    + lia.
    + lia.
Qed.

(** C5.  When no read of CONTROL fails or shows the bus connected,
    [pca9641_select_chan] ends in [-ETIMEDOUT], and it does so by the
    clock alone.  The window is HZ/4 ticks, a quarter of a second,
    counted from the read of [jiffies] at entry, wrap-around of the
    counter included: if some later read of [jiffies] finds more than
    HZ/4 ticks gone by, then with [m] the first such read the call makes
    exactly [m + 1] polls, each of them begun with at most HZ/4 ticks
    gone by, and returns [-ETIMEDOUT] right at that read, for every
    bound on the number of passes above [m].  If no two consecutive
    looks at the clock are more than [d] ticks apart, the call returns
    with at most HZ/4 + d ticks gone by.  The delays taken on the way
    (0 us or 1 ms, by what each poll saw) play no part in this. *)
Theorem select_times_out (k : kernel) (chan : Z) (s : state) (n : nat) :
  never_connected k ->
  0 < BITS_PER_LONG k ->
  0 <= HZ k ->
  Z.quot (HZ k) 4 < 2 ^ (BITS_PER_LONG k - 1) ->
  (forall i : nat, (i <= n)%nat ->
     elapsed k (jiffies k (ticks s)) (jiffies k (S (ticks s) + i))
     < 2 ^ (BITS_PER_LONG k - 1)) ->
  Z.quot (HZ k) 4 <
    elapsed k (jiffies k (ticks s)) (jiffies k (S (ticks s) + n)) ->
  exists (m : nat) (s' : state),
    (m <= n)%nat /\
    (forall i : nat, (i < m)%nat ->
       elapsed k (jiffies k (ticks s)) (jiffies k (S (ticks s) + i))
       <= Z.quot (HZ k) 4) /\
    Z.quot (HZ k) 4 <
      elapsed k (jiffies k (ticks s)) (jiffies k (S (ticks s) + m)) /\
    (forall d : Z,
       elapsed k (jiffies k (ticks s)) (jiffies k (S (ticks s))) <= d ->
       (forall i : nat, (i < n)%nat ->
          elapsed k (jiffies k (ticks s)) (jiffies k (S (ticks s) + S i))
          <= elapsed k (jiffies k (ticks s)) (jiffies k (S (ticks s) + i)) + d) ->
       elapsed k (jiffies k (ticks s)) (jiffies k (S (ticks s) + m))
       <= Z.quot (HZ k) 4 + d) /\
    (forall fuel : nat, (m < fuel)%nat ->
       pca9641_select_chan fuel k chan s = Some (- ETIMEDOUT k, s')) /\
    ticks s' = (S (ticks s) + m + 1)%nat /\
    count_events is_read (bus_log s') =
      (count_events is_read (bus_log s) + m + 1)%nat.
Proof.
  intros Hk Hb Hhz Hq Hrange Hlate.
  assert (0 <= Z.quot (HZ k) 4) as Hq0 by (apply Z.quot_pos; lia).
  assert (forall i : nat, (i <= n)%nat ->
            expired k (deadline k s) (S (ticks s) + i) =
            (Z.quot (HZ k) 4 <?
             elapsed k (jiffies k (ticks s)) (jiffies k (S (ticks s) + i))))
    as Hexp.
  { intros i Hi. apply (expired_elapsed k (jiffies k (ticks s)));
      [exact Hb | split; [exact Hq0 | exact Hq] | by apply Hrange]. }
  destruct (select_loop_expires k (deadline k s) Hk n (snd (read_jiffies k s)))
    as (m & s' & Hm & Hbefore & Hat & Hrun & Ht & Hr).
  { cbn [read_jiffies snd ticks]. rewrite Hexp by lia. by apply Z.ltb_lt. }
  cbn [read_jiffies snd ticks bus_log] in Hbefore, Hat, Ht, Hr.
  assert (forall i : nat, (i < m)%nat ->
            elapsed k (jiffies k (ticks s)) (jiffies k (S (ticks s) + i))
            <= Z.quot (HZ k) 4) as Hearly.
  { intros i Hi. specialize (Hbefore i Hi). rewrite Hexp in Hbefore by lia.
    by apply Z.ltb_ge. }
  assert (Z.quot (HZ k) 4 <
          elapsed k (jiffies k (ticks s)) (jiffies k (S (ticks s) + m)))
    as Hpast.
  { rewrite Hexp in Hat by lia. by apply Z.ltb_lt. }
  exists m, s'. split; [exact Hm|]. split; [exact Hearly|].
  split; [exact Hpast|]. split; [|split; [exact Hrun|split; [exact Ht|exact Hr]]].
  intros d Hfirst Hstep. destruct m as [|m'].
  - rewrite Nat.add_0_r. lia.
  - specialize (Hstep m' ltac:(lia)). specialize (Hearly m' ltac:(lia)). lia.
Qed.

Lemma steady_never_connected (byte : Z) :
  connected (u8 byte) = false -> never_connected (steady_kernel byte).
Proof. intros H n. split; [reflexivity | exact H]. Qed.

Lemma steady_elapsed (byte : Z) (i : nat) :
  (i <= 62)%nat ->
  elapsed (steady_kernel byte) (jiffies (steady_kernel byte) 0)
    (jiffies (steady_kernel byte) (1 + i)) = 1 + Z.of_nat i.
Proof.
  intros Hi. unfold elapsed, ulong. cbn [steady_kernel kernel_of jiffies BITS_PER_LONG].
  rewrite Z.sub_0_r, Nat2Z.inj_add. apply Z.mod_small.
  change (Z.of_nat 1) with 1. split; [lia|].
  assert (1 + Z.of_nat i <= 63) by lia.
  assert (63 < 2 ^ 64) by reflexivity. lia.
Qed.

Lemma select_times_out_witness :
  exists (m : nat) (s' : state),
    (m <= 62)%nat /\
    (forall i : nat, (i < m)%nat ->
       elapsed (steady_kernel 0x21)
         (jiffies (steady_kernel 0x21) (ticks fresh_state))
         (jiffies (steady_kernel 0x21) (S (ticks fresh_state) + i))
       <= Z.quot (HZ (steady_kernel 0x21)) 4) /\
    Z.quot (HZ (steady_kernel 0x21)) 4 <
      elapsed (steady_kernel 0x21)
        (jiffies (steady_kernel 0x21) (ticks fresh_state))
        (jiffies (steady_kernel 0x21) (S (ticks fresh_state) + m)) /\
    (forall d : Z,
       elapsed (steady_kernel 0x21)
         (jiffies (steady_kernel 0x21) (ticks fresh_state))
         (jiffies (steady_kernel 0x21) (S (ticks fresh_state))) <= d ->
       (forall i : nat, (i < 62)%nat ->
          elapsed (steady_kernel 0x21)
            (jiffies (steady_kernel 0x21) (ticks fresh_state))
            (jiffies (steady_kernel 0x21) (S (ticks fresh_state) + S i))
          <= elapsed (steady_kernel 0x21)
               (jiffies (steady_kernel 0x21) (ticks fresh_state))
               (jiffies (steady_kernel 0x21) (S (ticks fresh_state) + i)) + d) ->
       elapsed (steady_kernel 0x21)
         (jiffies (steady_kernel 0x21) (ticks fresh_state))
         (jiffies (steady_kernel 0x21) (S (ticks fresh_state) + m))
       <= Z.quot (HZ (steady_kernel 0x21)) 4 + d) /\
    (forall fuel : nat, (m < fuel)%nat ->
       pca9641_select_chan fuel (steady_kernel 0x21) 0 fresh_state =
       Some (- ETIMEDOUT (steady_kernel 0x21), s')) /\
    ticks s' = (S (ticks fresh_state) + m + 1)%nat /\
    count_events is_read (bus_log s') =
      (count_events is_read (bus_log fresh_state) + m + 1)%nat.
Proof.
  apply (select_times_out (steady_kernel 0x21) 0 fresh_state 62).
  - apply steady_never_connected. reflexivity.
  - reflexivity.
  - by vm_compute.
  - reflexivity.
  - intros i Hi. change (ticks fresh_state) with 0%nat.
    rewrite (steady_elapsed 0x21 i Hi).
    assert (64 < 2 ^ (BITS_PER_LONG (steady_kernel 0x21) - 1)) by reflexivity.
    lia.
  - change (ticks fresh_state) with 0%nat.
    rewrite (steady_elapsed 0x21 62 ltac:(lia)). reflexivity.
Defined.

(** * Release *)


Lemma new_events_app (s s' : state) (l : list event) :
  bus_log s' = bus_log s ++ l -> new_events s s' = l.
Proof. intros H. unfold new_events. rewrite H. by rewrite drop_app_length. Qed.




(** C9.  [pca9641_release_chan] returns 0 whatever the adapter reports
    for the write of 0x00 to CONTROL, success or failure alike:
    [pca9641_release_bus] drops the result of the transfer, which only
    shows in the log. *)
Theorem release_reports_success (k : kernel) (chan : Z) (s : state)
    (rp : smbus_reply) :
  smbus_xfer k (xfers s) (WriteByteData PCA9641_CONTR 0x00) = rp ->
  pca9641_release_bus k s =
    (tt, after_xfer (WriteByteData PCA9641_CONTR 0x00) rp s) /\
  pca9641_release_chan k chan s =
    (0, after_xfer (WriteByteData PCA9641_CONTR 0x00) rp s).
Proof. intros <-. split; reflexivity. Qed.

Lemma release_reports_success_witness :
  pca9641_release_bus write_fault_kernel fresh_state =
    (tt, after_xfer (WriteByteData PCA9641_CONTR 0x00) (nack (-5)) fresh_state) /\
  pca9641_release_chan write_fault_kernel 0 fresh_state =
    (0, after_xfer (WriteByteData PCA9641_CONTR 0x00) (nack (-5)) fresh_state).
Proof.
  apply (release_reports_success write_fault_kernel 0 fresh_state (nack (-5))).
  reflexivity.
Defined.

(** C10.  The channel index plays no part in select or release: for any
    two indices, the same kernel and the same state, both calls give the
    same result and the same final state, log of transfers included. *)
Theorem chan_ignored (fuel : nat) (k : kernel) (chan1 chan2 : Z) (s : state) :
  pca9641_select_chan fuel k chan1 s = pca9641_select_chan fuel k chan2 s /\
  pca9641_release_chan k chan1 s = pca9641_release_chan k chan2 s.
Proof. split; reflexivity. Qed.

(** * The retry delay across calls *)

Lemma arbitrate_stale (k : kernel) (s : state) (d : Z) :
  forall (r : Z) (s1 : state),
    pca9641_arbitrate k s = (r, s1) ->
    (r = 0 /\ pca9641_arbitrate k (with_select_timeout d s) = (0, s1)) \/
    (r <> 0 /\
     pca9641_arbitrate k (with_select_timeout d s) = (r, with_select_timeout d s1) /\
     s1 = after_xfer read_contr (smbus_xfer k (xfers s) read_contr) s).
Proof.
  intros r s1. rewrite !arbitrate_cases. cbv zeta.
  cbn [with_select_timeout xfers].
  set (rp := smbus_xfer k (xfers s) read_contr).
  fold (reg_of rp).
  destruct (Z.ltb_spec (reg_of rp) 0) as [Hneg|_].
  { intros [= <- <-]. right. split; [lia|]. split; reflexivity. }
  destruct (connected (reg_of rp)).
  { intros [= <- <-]. right. split; [lia|]. split; reflexivity. }
  destruct (requested (reg_of rp)).
  - intros [= <- <-]. left. split; reflexivity.
  - intros [= <- <-]. left. split; reflexivity.
Qed.

Lemma select_body_stale (k : kernel) (s : state) (d : Z) :
  forall (o : option Z) (s1 : state),
    select_body k s = (o, s1) ->
    (o = None /\ select_body k (with_select_timeout d s) = (None, s1)) \/
    (o <> None /\
     select_body k (with_select_timeout d s) = (o, with_select_timeout d s1) /\
     s1 = after_xfer read_contr (smbus_xfer k (xfers s) read_contr) s).
Proof.
  intros o s1. rewrite !select_body_eq.
  destruct (pca9641_arbitrate k s) as [r s0] eqn:A.
  destruct (arbitrate_stale k s d r s0 A) as [[-> A']|(Hr & A' & ->)];
    rewrite A'.
  - cbn [Z.eqb negb]. intros [= <- <-]. left. split; reflexivity.
  - destruct (Z.eqb_spec r 0) as [?|_]; [done|]. cbn [negb].
    intros [= <- <-]. right. split; [done|]. split; reflexivity.
Qed.

Lemma select_loop_stale (k : kernel) (timeout : Z) (fuel : nat) (s : state) (d : Z) :
  match select_loop fuel k timeout s with
  | None => select_loop fuel k timeout (with_select_timeout d s) = None
  | Some (r, s') =>
      select_loop fuel k timeout (with_select_timeout d s) = Some (r, s') \/
      (select_loop fuel k timeout (with_select_timeout d s) =
         Some (r, with_select_timeout d s') /\
       s' = after_xfer read_contr (smbus_xfer k (xfers s) read_contr) s)
  end.
Proof.
  destruct fuel as [|fuel]; [reflexivity|]. cbn [select_loop].
  destruct (select_body k s) as [o s1] eqn:B.
  destruct (select_body_stale k s d o s1 B) as [[-> B']|(Ho & B' & ->)];
    rewrite B'.
  - destruct (read_jiffies k s1) as [j s2].
    destruct (time_after_eq k timeout j).
    + destruct (select_loop fuel k timeout s2) as [[r s']|]; [by left | done].
    + by left.
  - destruct o as [r|]; [|done]. right. split; reflexivity.
Qed.

(** C7, as amended.  [pca9641_select_chan] does not reset
    [select_timeout] on entry, and what a call leaves in the field stays
    there for the next call.  The stale value is never used, though:
    started with any other value [d] in the field, the call gives the
    same result, the same transfers and delays and the same final state,
    because every poll that reaches the delay has rewritten the field
    first.  The one difference is a call that ends at its first poll
    (bus acquired, or read error): it issues the read and nothing else,
    and the field keeps the value it had on entry. *)
Theorem stale_timeout_never_read (fuel : nat) (k : kernel) (chan : Z)
    (s : state) (d : Z) :
  match pca9641_select_chan fuel k chan s with
  | None => pca9641_select_chan fuel k chan (with_select_timeout d s) = None
  | Some (r, s') =>
      pca9641_select_chan fuel k chan (with_select_timeout d s) = Some (r, s') \/
      (pca9641_select_chan fuel k chan (with_select_timeout d s) =
         Some (r, with_select_timeout d s') /\
       select_timeout s' = select_timeout s /\
       new_events s s' = [Xfer read_contr (smbus_xfer k (xfers s) read_contr)])
  end.
Proof.
  unfold pca9641_select_chan. cbn [read_jiffies with_select_timeout ticks].
  set (tmo := ulong k (ulong k (jiffies k (ticks s)) + ARB_TIMEOUT k)).
  set (s0 := {| select_timeout := select_timeout s; xfers := xfers s;
                ticks := S (ticks s); bus_log := bus_log s |}).
  pose proof (select_loop_stale k tmo fuel s0 d) as H.
  change (with_select_timeout d s0) with
    {| select_timeout := d; xfers := xfers s; ticks := S (ticks s);
       bus_log := bus_log s |} in H.
  destruct (select_loop fuel k tmo s0) as [[r s']|]; [|exact H].
  destruct H as [H|[H ->]]; [by left|]. right.
  split; [exact H|]. split; [reflexivity|].
  by apply new_events_app.
Qed.

(** C7, as stated, fails: with the bus connected at the first poll the
    call returns 0 and the field still holds whatever it held before, be
    it 0 or 1000. *)
Lemma select_keeps_stale_timeout :
  (forall d : Z,
     pca9641_select_chan 1 (steady_kernel 0x07) 0
       (with_select_timeout d fresh_state) =
     Some (0, with_select_timeout d
                (after_xfer read_contr (ack 0x07)
                   (snd (read_jiffies (steady_kernel 0x07) fresh_state))))) /\
  ~ select_resets_timeout.
Proof.
  split; [reflexivity|].
  intros H.
  specialize (H 1%nat (steady_kernel 0x07) 0 fresh_state 0 1000 _ _ _ _
                eq_refl eq_refl).
  cbn in H. lia.
Qed.

(** * The shape of the polling loop *)

(** Each pass through the body appends one [iteration] to the log and
    leaves the clock alone. *)
Lemma select_body_iteration (k : kernel) (s : state) :
  exists b : list event,
    iteration b /\
    bus_log (snd (select_body k s)) = bus_log s ++ b /\
    ticks (snd (select_body k s)) = ticks s.
Proof.
  rewrite select_body_eq, arbitrate_cases. cbv zeta.
  set (rp := smbus_xfer k (xfers s) read_contr). fold (reg_of rp).
  destruct (Z.ltb_spec (reg_of rp) 0) as [Hneg|Hpos].
  { destruct (Z.eqb_spec (reg_of rp) 0) as [?|_]; [lia|].
    eexists. split; [apply (iteration_return rp); by left|].
    split; reflexivity. }
  destruct (connected (reg_of rp)) eqn:C.
  { eexists. split; [apply (iteration_return rp); by right|].
    split; reflexivity. }
  destruct (requested (reg_of rp)) eqn:R.
  - eexists. split; [by apply (iteration_wait rp)|].
    split; [|reflexivity].
    cbn. by rewrite <- app_assoc.
  - eexists. split; [by apply (iteration_request rp)|].
    split; [|reflexivity].
    cbn. by rewrite <- !app_assoc.
Qed.

Lemma select_loop_iterations (k : kernel) (timeout : Z) :
  forall (fuel : nat) (s s' : state) (r : Z),
    select_loop fuel k timeout s = Some (r, s') ->
    exists blocks : list (list event),
      bus_log s' = bus_log s ++ concat blocks /\
      Forall iteration blocks /\
      (1 <= length blocks)%nat /\
      (ticks s' = (ticks s + length blocks)%nat \/
       S (ticks s') = (ticks s + length blocks)%nat).
Proof.
  induction fuel as [|fuel IH]; intros s s' r; [done|].
  cbn [select_loop].
  destruct (select_body_iteration k s) as (b & Hb & Hlog & Ht).
  destruct (select_body k s) as [[r0|] s1]; cbn [snd] in Hlog, Ht.
  - intros [= <- <-]. exists [b]. cbn. rewrite app_nil_r.
    split; [done|]. split; [by constructor|]. split; [lia|]. right. lia.
  - cbn [read_jiffies].
    set (s2 := {| select_timeout := select_timeout s1; xfers := xfers s1;
                  ticks := S (ticks s1); bus_log := bus_log s1 |}).
    destruct (time_after_eq k timeout (ulong k (jiffies k (ticks s1)))).
    + intros Hrun. apply IH in Hrun as (blocks & Hl & Hf & Hn & Hticks).
      exists (b :: blocks). cbn [concat length].
      split; [rewrite Hl; cbn [s2 bus_log]; by rewrite Hlog, <- app_assoc|].
      split; [by constructor|]. split; [lia|].
      cbn [s2 ticks] in Hticks. lia.
    + intros [= <- <-]. exists [b]. cbn. rewrite app_nil_r.
      split; [done|]. split; [by constructor|]. split; [lia|]. left. lia.
Qed.

(** C8, as amended.  A run of [pca9641_select_chan] that returns is a
    sequence of at least one pass through the loop body, and its log is
    the concatenation of what the passes issued.  Each pass issues
    exactly one read of CONTROL, first; then at most one write (the
    block write of the request, issued on any pass whose read shows the
    chip neither connected nor requested, not on the first pass only);
    and its delay, if it has one, comes last.  The passes are as many as
    the reads of [jiffies] the loop made, or one more when the last pass
    returned from inside the body. *)
Theorem select_iterations (fuel : nat) (k : kernel) (chan : Z)
    (s s' : state) (r : Z) :
  pca9641_select_chan fuel k chan s = Some (r, s') ->
  exists blocks : list (list event),
    bus_log s' = bus_log s ++ concat blocks /\
    Forall iteration blocks /\
    (1 <= length blocks)%nat /\
    (ticks s' = (S (ticks s) + length blocks)%nat \/
     ticks s' = (ticks s + length blocks)%nat) /\
    Forall (fun b =>
              count_events is_read b = 1%nat /\
              (count_events is_write b <= 1)%nat /\
              (count_events is_delay b <= 1)%nat /\
              (exists rp rest, b = Xfer read_contr rp :: rest) /\
              count_events is_delay (List.removelast b) = 0%nat) blocks.
Proof.
  unfold pca9641_select_chan. cbn [read_jiffies]. intros Hrun.
  apply select_loop_iterations in Hrun as (blocks & Hl & Hf & Hn & Ht).
  exists blocks. cbn [bus_log ticks] in Hl, Ht.
  split; [done|]. split; [done|]. split; [done|]. split; [lia|].
  eapply Forall_impl; [exact Hf|].
  intros b [rp ?|rp ? ? ?|rp wp ? ? ?]; cbn;
    (split; [reflexivity|]); (split; [lia|]); (split; [lia|]);
    (split; [by eexists _, _|]); reflexivity.
Qed.

Lemma select_iterations_witness :
  let s' :=
    {| select_timeout := SELECT_DELAY_SHORT;
       xfers := 5; ticks := 3;
       bus_log :=
         [Xfer read_contr (ack 0x00);
          Xfer write_request (ack 0x00); Udelay 0;
          Xfer read_contr (ack 0x25);
          Xfer write_request (ack 0x25); Udelay 0;
          Xfer read_contr (ack 0x07)] |} in
  exists blocks : list (list event),
    bus_log s' = bus_log fresh_state ++ concat blocks /\
    Forall iteration blocks /\
    (1 <= length blocks)%nat /\
    (ticks s' = (S (ticks fresh_state) + length blocks)%nat \/
     ticks s' = (ticks fresh_state + length blocks)%nat) /\
    Forall (fun b =>
              count_events is_read b = 1%nat /\
              (count_events is_write b <= 1)%nat /\
              (count_events is_delay b <= 1)%nat /\
              (exists rp rest, b = Xfer read_contr rp :: rest) /\
              count_events is_delay (List.removelast b) = 0%nat) blocks.
Proof.
  cbv zeta.
  apply (select_iterations 3 granted_on_third_poll 0 fresh_state _ 0).
  reflexivity.
Defined.

(** C8, as stated, fails: the chip is idle at the first poll, shows the
    request latched but not yet granted at the second, and the bus
    connected at the third.  The call returns 0 after three passes, and
    the second pass wrote the request again. *)
Lemma second_iteration_writes :
  pca9641_select_chan 3 granted_on_third_poll 0 fresh_state =
    Some (0, {| select_timeout := SELECT_DELAY_SHORT;
                xfers := 5; ticks := 3;
                bus_log :=
                  [Xfer read_contr (ack 0x00);
                   Xfer write_request (ack 0x00); Udelay 0;
                   Xfer read_contr (ack 0x25);
                   Xfer write_request (ack 0x25); Udelay 0;
                   Xfer read_contr (ack 0x07)] |}) /\
  ~ writes_on_first_iteration_only.
Proof.
  split; [reflexivity|].
  intros H.
  specialize (H 3%nat granted_on_third_poll 0 fresh_state _ _
                [[Xfer read_contr (ack 0x00);
                  Xfer write_request (ack 0x00); Udelay 0];
                 [Xfer read_contr (ack 0x25);
                  Xfer write_request (ack 0x25); Udelay 0];
                 [Xfer read_contr (ack 0x07)]]
                eq_refl eq_refl).
  assert (1 = 0)%nat; [|lia].
  apply (fun F => H F 1%nat _ eq_refl); [|lia].
  apply Forall_cons. split; [apply iteration_request; by cbn|].
  apply Forall_cons. split; [apply iteration_request; by cbn|].
  apply Forall_cons. split; [apply iteration_return; by right|].
  apply Forall_nil_2.
Qed.

(** * Two runs from the specification's scenarios *)

(** Register 0x00 at first: the first poll writes the request and spins,
    the second sees the bus connected, and the call returns 0 after
    exactly two polls. *)
Example select_granted_on_second_poll :
  pca9641_select_chan 2 granted_on_second_poll 0 fresh_state =
  Some (0, {| select_timeout := SELECT_DELAY_SHORT;
              xfers := 3; ticks := 2;
              bus_log := [Xfer read_contr (ack 0x00);
                          Xfer write_request (ack 0x00); Udelay 0;
                          Xfer read_contr (ack 0x07)] |}).
Proof. reflexivity. Qed.

(** LOCK_REQ alone for the whole window, one tick per pass, HZ = 250:
    the deadline is tick 62, the call polls 63 times without a write and
    returns -ETIMEDOUT with the long delay in place; 62 passes are not
    enough to see it return. *)
Example select_contended_times_out :
  run_summary (pca9641_select_chan 63 (steady_kernel 0x01) 0 fresh_state) =
    Some (-110, 63%nat, 0%nat, SELECT_DELAY_LONG) /\
  pca9641_select_chan 62 (steady_kernel 0x01) 0 fresh_state = None.
Proof. split; vm_compute; reflexivity. Qed.

(** * Further properties of the predicates *)

(** X1.  No register value is both [connected] and [requested]. *)
Theorem predicates_exclusive (x : Z) :
  connected x && requested x = false.
Proof.
  rewrite connected_bits, requested_bits.
  destruct (Z.testbit x 0), (Z.testbit x 1), (Z.testbit x 2); reflexivity.
Qed.

Lemma land_CONNECT_0_bits (m : Z) :
  Z.land m CONNECT = 0 ->
  Z.testbit m 0 = false /\ Z.testbit m 1 = false /\ Z.testbit m 2 = false.
Proof.
  rewrite CONNECT_val. intros H. apply land_7_eq in H; [|lia]. exact H.
Qed.

(** X2.  The two predicates look at LOCK_REQ, LOCK_GRANT and BUS_CONNECT
    only: setting or clearing any bits outside [CONNECT] in a register
    value changes neither of them. *)
Theorem predicates_ignore_other_bits (x m : Z) :
  Z.land m CONNECT = 0 ->
  connected (Z.lor x m) = connected x /\
  requested (Z.lor x m) = requested x /\
  connected (Z.ldiff x m) = connected x /\
  requested (Z.ldiff x m) = requested x.
Proof.
  intros H. apply land_CONNECT_0_bits in H as (M0 & M1 & M2).
  rewrite !connected_bits, !requested_bits, !Z.lor_spec, !Z.ldiff_spec.
  rewrite M0, M1, M2, !orb_false_r, !andb_true_r. done.
Qed.

Lemma predicates_ignore_other_bits_witness :
  connected (Z.lor 0x07 PCA9641_CTL_PRIORITY) = connected 0x07 /\
  requested (Z.lor 0x07 PCA9641_CTL_PRIORITY) = requested 0x07 /\
  connected (Z.ldiff 0x07 PCA9641_CTL_PRIORITY) = connected 0x07 /\
  requested (Z.ldiff 0x07 PCA9641_CTL_PRIORITY) = requested 0x07.
Proof.
  apply (predicates_ignore_other_bits 0x07 PCA9641_CTL_PRIORITY). reflexivity.
Defined.

(** * Further properties of register access and arbitration *)

Lemma u8_range (x : Z) : 0 <= u8 x < 256.
Proof. unfold u8. apply Z.mod_pos_bound. lia. Qed.

(** X3.  [pca9641_reg_read] gives a negative value exactly when the
    transfer reported one, and then it is that value; when the transfer
    reported 0 the value is a byte, 0 to 255; any other (positive)
    transfer result is handed on as if it were the register content. *)
Theorem reg_read_result (k : kernel) (command : Z) (s : state) :
  let rp := smbus_xfer k (xfers s) (ReadByteData (u8 command)) in
  let r := fst (pca9641_reg_read k command s) in
  (r < 0 <-> xfer_ret rp < 0) /\
  (xfer_ret rp = 0 -> 0 <= r < 256 /\ r = u8 (xfer_byte rp)) /\
  (xfer_ret rp <> 0 -> r = xfer_ret rp).
Proof.
  cbv zeta. unfold pca9641_reg_read, bind, __i2c_smbus_xfer, ret. cbn [fst].
  set (rp := smbus_xfer k (xfers s) (ReadByteData (u8 command))).
  pose proof (u8_range (xfer_byte rp)) as Hb.
  destruct (Z.eqb_spec (xfer_ret rp) 0) as [E|E].
  - split; [lia|]. split; [done | lia].
  - split; [done|]. split; [lia | done].
Qed.

(** X4.  [pca9641_arbitrate] returns 1, 0 or a negative value, as its
    comment says.  The result is negative exactly when the read of
    CONTROL reported a negative result, and is then that result; it is 1
    exactly when the value read is [connected]. *)
Theorem arbitrate_result (k : kernel) (s : state) :
  let rp := smbus_xfer k (xfers s) read_contr in
  let r := fst (pca9641_arbitrate k s) in
  (r = 1 \/ r = 0 \/ r < 0) /\
  (r < 0 <-> xfer_ret rp < 0) /\
  (r < 0 -> r = xfer_ret rp) /\
  (r = 1 <-> 0 <= reg_of rp /\ connected (reg_of rp) = true).
Proof.
  cbv zeta. rewrite arbitrate_cases. cbv zeta.
  set (rp := smbus_xfer k (xfers s) read_contr). fold (reg_of rp).
  assert (reg_of rp < 0 <-> xfer_ret rp < 0) as Hneg.
  { unfold reg_of. pose proof (u8_range (xfer_byte rp)).
    destruct (Z.eqb_spec (xfer_ret rp) 0); lia. }
  assert (reg_of rp < 0 -> reg_of rp = xfer_ret rp) as Heq.
  { unfold reg_of. pose proof (u8_range (xfer_byte rp)).
    destruct (Z.eqb_spec (xfer_ret rp) 0); lia. }
  destruct (Z.ltb_spec (reg_of rp) 0) as [Hlt|Hge]; cbn [fst].
  { split; [lia|]. split; [done|]. split; [done|]. lia. }
  destruct (connected (reg_of rp)) eqn:C; cbn [fst].
  { split; [lia|]. split; [lia|]. split; [lia|]. done. }
  destruct (requested (reg_of rp)); cbn [fst];
    (split; [lia|]); (split; [lia|]); (split; [lia|]);
    (split; [lia | intros [_ ?]; done]).
Qed.

(** X5.  [pca9641_arbitrate] never delays and never looks at the clock.
    It issues one or two transfers, the first of which is the read of
    CONTROL, and a second one only when it returns 0. *)
Theorem arbitrate_never_sleeps (k : kernel) (s : state) :
  let out := pca9641_arbitrate k s in
  ticks (snd out) = ticks s /\
  count_events is_delay (new_events s (snd out)) = 0%nat /\
  (exists rest,
     new_events s (snd out) =
       Xfer read_contr (smbus_xfer k (xfers s) read_contr) :: rest /\
     (length rest <= 1)%nat /\
     (fst out <> 0 -> rest = [])) /\
  xfers (snd out) = (xfers s + length (new_events s (snd out)))%nat.
Proof.
  cbv zeta. rewrite arbitrate_cases. cbv zeta.
  set (rp := smbus_xfer k (xfers s) read_contr). fold (reg_of rp).
  destruct (reg_of rp <? 0); [|destruct (connected (reg_of rp));
    [|destruct (requested (reg_of rp))]]; cbn [fst snd];
  (split; [reflexivity|]).
  1-3: rewrite (new_events_app s _ [Xfer read_contr rp]) by reflexivity.
  4: rewrite (new_events_app s _ [Xfer read_contr rp;
        Xfer write_request (smbus_xfer k (S (xfers s)) write_request)])
      by (cbn; by rewrite <- app_assoc).
  all: split; [reflexivity|].
  all: split; [eexists; split; [reflexivity|]; split; [cbn; lia|done] | cbn; lia].
Qed.

(** * Further properties of select *)

Lemma reg_of_neg (rp : smbus_reply) :
  reg_of rp < 0 -> reg_of rp = xfer_ret rp.
Proof.
  unfold reg_of. pose proof (u8_range (xfer_byte rp)).
  destruct (Z.eqb_spec (xfer_ret rp) 0); lia.
Qed.

(** How one pass through the body can end. *)
Lemma select_body_outcome (k : kernel) (s : state) :
  let rp := smbus_xfer k (xfers s) read_contr in
  match select_body k s with
  | (Some r, s1) =>
      s1 = after_xfer read_contr rp s /\
      ((r = 0 /\ 0 <= reg_of rp /\ connected (reg_of rp) = true) \/
       (r < 0 /\ xfer_ret rp = r))
  | (None, s1) =>
      ticks s1 = ticks s /\
      retry_delay (select_timeout s1) /\
      exists l e, bus_log s1 = l ++ [e] /\ is_delay e = true
  end.
Proof.
  cbv zeta. rewrite select_body_eq, arbitrate_cases. cbv zeta.
  set (rp := smbus_xfer k (xfers s) read_contr). fold (reg_of rp).
  destruct (Z.ltb_spec (reg_of rp) 0) as [Hneg|Hpos].
  { destruct (Z.eqb_spec (reg_of rp) 0) as [?|_]; [lia|]. cbn [negb].
    split; [reflexivity|]. right.
    destruct (Z.ltb_spec (reg_of rp) 0) as [_|?]; [|lia].
    split; [done|]. symmetry. by apply reg_of_neg. }
  destruct (connected (reg_of rp)) eqn:C.
  { cbn. split; [reflexivity|]. left. done. }
  destruct (requested (reg_of rp)); cbn.
  - split; [done|]. split; [by right|]. by eexists _, _.
  - split; [done|]. split; [by left|]. by eexists _, _.
Qed.

(** How a run of the loop can end: with 0 right after a read that
    showed the bus connected, with the negative result of its last read,
    or with [-ETIMEDOUT] after a delay and a look at the clock that found
    the deadline passed. *)
Lemma select_loop_outcome (k : kernel) (timeout : Z) :
  forall (fuel : nat) (s s' : state) (r : Z),
    select_loop fuel k timeout s = Some (r, s') ->
    (r = 0 /\
     exists l rp, bus_log s' = l ++ [Xfer read_contr rp] /\
                  0 <= reg_of rp /\ connected (reg_of rp) = true) \/
    (r < 0 /\
     exists l rp, bus_log s' = l ++ [Xfer read_contr rp] /\ xfer_ret rp = r) \/
    (r = - ETIMEDOUT k /\
     retry_delay (select_timeout s') /\
     (exists l e, bus_log s' = l ++ [e] /\ is_delay e = true) /\
     exists n, ticks s' = S n /\ expired k timeout n = true).
Proof.
  induction fuel as [|fuel IH]; intros s s' r; [done|].
  cbn [select_loop].
  pose proof (select_body_outcome k s) as B. cbv zeta in B.
  destruct (select_body k s) as [[r0|] s1].
  - destruct B as [-> B]. intros [= <- <-].
    destruct B as [(-> & ? & ?)|(? & ?)]; [left | right; left];
      (split; [done|]); eexists _, _; cbn [after_xfer bus_log]; done.
  - destruct B as (Ht & Hd & Hl). cbn [read_jiffies].
    destruct (time_after_eq k timeout (ulong k (jiffies k (ticks s1)))) eqn:T.
    + apply IH.
    + intros [= <- <-]. right. right. cbn [select_timeout bus_log ticks].
      split; [done|]. split; [done|]. split; [done|].
      exists (ticks s1). split; [done|]. unfold expired. by rewrite T.
Qed.

(** X6.  However a call of [pca9641_select_chan] ends, it ends in one of
    three ways: it returns 0 and the last thing it did was a read of
    CONTROL that showed the bus connected; or it returns a negative
    value that is the result of its last transfer, a read of CONTROL; or
    it returns [-ETIMEDOUT], the last thing it did on the bus side was a
    delay, and the last look at the clock found the deadline passed. *)
Theorem select_outcome (fuel : nat) (k : kernel) (chan : Z)
    (s s' : state) (r : Z) :
  pca9641_select_chan fuel k chan s = Some (r, s') ->
  (r = 0 /\
   exists l rp, bus_log s' = l ++ [Xfer read_contr rp] /\
                0 <= reg_of rp /\ connected (reg_of rp) = true) \/
  (r < 0 /\
   exists l rp, bus_log s' = l ++ [Xfer read_contr rp] /\ xfer_ret rp = r) \/
  (r = - ETIMEDOUT k /\
   retry_delay (select_timeout s') /\
   (exists l e, bus_log s' = l ++ [e] /\ is_delay e = true) /\
   exists n, ticks s' = S n /\ expired k (deadline k s) n = true).
Proof. unfold pca9641_select_chan. cbn [read_jiffies]. apply select_loop_outcome. Qed.

Lemma select_outcome_witness :
  (0 = 0 /\
   exists l rp,
     bus_log (after_xfer read_contr (ack 0x07)
                (snd (read_jiffies (steady_kernel 0x07) fresh_state))) =
       l ++ [Xfer read_contr rp] /\
     0 <= reg_of rp /\ connected (reg_of rp) = true) \/
  (0 < 0 /\
   exists l rp,
     bus_log (after_xfer read_contr (ack 0x07)
                (snd (read_jiffies (steady_kernel 0x07) fresh_state))) =
       l ++ [Xfer read_contr rp] /\ xfer_ret rp = 0) \/
  (0 = - ETIMEDOUT (steady_kernel 0x07) /\
   retry_delay (select_timeout
                  (after_xfer read_contr (ack 0x07)
                     (snd (read_jiffies (steady_kernel 0x07) fresh_state)))) /\
   (exists l e,
      bus_log (after_xfer read_contr (ack 0x07)
                 (snd (read_jiffies (steady_kernel 0x07) fresh_state))) =
        l ++ [e] /\ is_delay e = true) /\
   exists n,
     ticks (after_xfer read_contr (ack 0x07)
              (snd (read_jiffies (steady_kernel 0x07) fresh_state))) = S n /\
     expired (steady_kernel 0x07)
       (deadline (steady_kernel 0x07) fresh_state) n = true).
Proof.
  apply (select_outcome 1 (steady_kernel 0x07) 0 fresh_state
           (after_xfer read_contr (ack 0x07)
              (snd (read_jiffies (steady_kernel 0x07) fresh_state))) 0).
  reflexivity.
Defined.

(** X7.  With [ETIMEDOUT] positive, [pca9641_select_chan] never returns
    a positive value, and it returns 0 only right after a read of
    CONTROL that showed LOCK_REQ, LOCK_GRANT and BUS_CONNECT all set:
    nothing is issued after that read. *)
Theorem select_success_means_connected (fuel : nat) (k : kernel) (chan : Z)
    (s s' : state) (r : Z) :
  0 < ETIMEDOUT k ->
  pca9641_select_chan fuel k chan s = Some (r, s') ->
  r <= 0 /\
  (r = 0 ->
   exists l rp,
     bus_log s' = l ++ [Xfer read_contr rp] /\
     has_flag (reg_of rp) PCA9641_CTL_LOCK_REQ = true /\
     has_flag (reg_of rp) PCA9641_CTL_LOCK_GRANT = true /\
     has_flag (reg_of rp) PCA9641_CTL_BUS_CONNECT = true).
Proof.
  intros He Hrun. unfold pca9641_select_chan in Hrun. cbn [read_jiffies] in Hrun.
  apply select_loop_outcome in Hrun
    as [(-> & l & rp & Hl & Hp & C)|[(Hr & _)|(-> & _)]].
  - split; [lia|]. intros _. exists l, rp. split; [done|].
    rewrite connected_flags in C.
    apply andb_true_iff in C as [C C2]. apply andb_true_iff in C as [C0 C1].
    done.
  - split; [lia|]. intros ->. lia.
  - split; [lia|]. intros ?. lia.
Qed.

Lemma select_success_means_connected_witness :
  0 <= 0 /\
  (0 = 0 ->
   exists l rp,
     bus_log (after_xfer read_contr (ack 0x07)
                (snd (read_jiffies (steady_kernel 0x07) fresh_state))) =
       l ++ [Xfer read_contr rp] /\
     has_flag (reg_of rp) PCA9641_CTL_LOCK_REQ = true /\
     has_flag (reg_of rp) PCA9641_CTL_LOCK_GRANT = true /\
     has_flag (reg_of rp) PCA9641_CTL_BUS_CONNECT = true).
Proof.
  apply (select_success_means_connected 1 (steady_kernel 0x07) 0 fresh_state
           (after_xfer read_contr (ack 0x07)
              (snd (read_jiffies (steady_kernel 0x07) fresh_state))) 0);
    [cbn; lia | reflexivity].
Defined.

Lemma iteration_one_read (b : list event) :
  iteration b -> count_events is_read b = 1%nat.
Proof. intros [rp ?|rp ? ? ?|rp wp ? ? ?]; reflexivity. Qed.

Lemma select_body_polls_once (k : kernel) (s : state) :
  ticks (snd (select_body k s)) = ticks s /\
  count_events is_read (bus_log (snd (select_body k s))) =
    S (count_events is_read (bus_log s)).
Proof.
  destruct (select_body_iteration k s) as (b & Hb & Hl & Ht).
  split; [exact Ht|].
  rewrite Hl, count_events_app, (iteration_one_read b Hb). lia.
Qed.

Lemma select_loop_returns (k : kernel) (timeout : Z) :
  forall (n : nat) (s : state),
    expired k timeout (ticks s + n) = true ->
    exists (r : Z) (s' : state),
      (forall fuel : nat, (n < fuel)%nat ->
         select_loop fuel k timeout s = Some (r, s')) /\
      (count_events is_read (bus_log s') <=
         count_events is_read (bus_log s) + n + 1)%nat.
Proof.
  induction n as [|n IH]; intros s Hexp;
    pose proof (select_body_polls_once k s) as [Ht Hr];
    destruct (select_body k s) as [[r0|] s1] eqn:B; cbn [snd] in Ht, Hr.
  - exists r0, s1. split; [|lia].
    intros [|fuel] Hf; [lia|]. cbn [select_loop]. by rewrite B.
  - rewrite Nat.add_0_r in Hexp. unfold expired in Hexp.
    apply negb_true_iff in Hexp.
    eexists _, _. split.
    + intros [|fuel] Hf; [lia|]. cbn [select_loop]. rewrite B.
      cbn [read_jiffies]. rewrite Ht, Hexp. reflexivity.
    + cbn [bus_log]. lia.
  - exists r0, s1. split; [|lia].
    intros [|fuel] Hf; [lia|]. cbn [select_loop]. by rewrite B.
  - destruct (time_after_eq k timeout (ulong k (jiffies k (ticks s)))) eqn:T.
    + set (s2 := snd (read_jiffies k s1)).
      destruct (IH s2) as (r & s' & Hrun & Hcount).
      { cbn [s2 read_jiffies snd ticks]. rewrite Ht.
        by replace (S (ticks s) + n)%nat with (ticks s + S n)%nat by lia. }
      exists r, s'. split.
      * intros [|fuel] Hf; [lia|]. cbn [select_loop]. rewrite B.
        cbn [read_jiffies]. rewrite <- Ht in T. rewrite T. apply Hrun. lia.
      * cbn [s2 read_jiffies snd bus_log] in Hcount. lia.
    + eexists _, _. split.
      * intros [|fuel] Hf; [lia|]. cbn [select_loop]. rewrite B.
        cbn [read_jiffies]. rewrite Ht, T. reflexivity.
      * cbn [bus_log]. lia.
Qed.

(** X8.  Whatever the transfers report, [pca9641_select_chan] returns
    once the clock is seen past the deadline: if the [n + 1]-th read of
    [jiffies] after entry is past it, the call returns within [n + 1]
    passes through the loop, with the same outcome for every larger
    bound, and it has read CONTROL at most [n + 1] times. *)
Theorem select_returns_by_deadline (k : kernel) (chan : Z) (s : state)
    (n : nat) :
  expired k (deadline k s) (S (ticks s) + n) = true ->
  exists (r : Z) (s' : state),
    (forall fuel : nat, (n < fuel)%nat ->
       pca9641_select_chan fuel k chan s = Some (r, s')) /\
    (count_events is_read (bus_log s') <=
       count_events is_read (bus_log s) + n + 1)%nat.
Proof.
  intros Hexp.
  destruct (select_loop_returns k (deadline k s) n (snd (read_jiffies k s)) Hexp)
    as (r & s' & Hrun & Hcount).
  exists r, s'. split; [exact Hrun | exact Hcount].
Qed.

Lemma select_returns_by_deadline_witness :
  exists (r : Z) (s' : state),
    (forall fuel : nat, (62 < fuel)%nat ->
       pca9641_select_chan fuel granted_on_third_poll 0 fresh_state =
       Some (r, s')) /\
    (count_events is_read (bus_log s') <=
       count_events is_read (bus_log fresh_state) + 62 + 1)%nat.
Proof.
  apply (select_returns_by_deadline granted_on_third_poll 0 fresh_state 62).
  vm_compute. reflexivity.
Defined.

(** X9.  The deadline test is right across a wrap of the tick counter.
    With [ARB_TIMEOUT] and the ticks gone by since entry both below half
    the range of [unsigned long], a sample of [jiffies] is past the
    deadline exactly when more than [ARB_TIMEOUT] ticks have gone by:
    the loop goes on while the count is at most [ARB_TIMEOUT], the tick
    of the deadline itself included. *)
Theorem expired_wrap_safe (k : kernel) (t0 : Z) (n : nat) :
  0 < BITS_PER_LONG k ->
  0 <= ARB_TIMEOUT k < 2 ^ (BITS_PER_LONG k - 1) ->
  elapsed k t0 (jiffies k n) < 2 ^ (BITS_PER_LONG k - 1) ->
  expired k (ulong k (ulong k t0 + ARB_TIMEOUT k)) n =
  (ARB_TIMEOUT k <? elapsed k t0 (jiffies k n)).
Proof. apply expired_elapsed. Qed.

Lemma expired_wrap_safe_witness :
  expired wrapping_kernel
    (ulong wrapping_kernel
       (ulong wrapping_kernel (2 ^ 64 - 10) + ARB_TIMEOUT wrapping_kernel)) 63 =
  (ARB_TIMEOUT wrapping_kernel <?
   elapsed wrapping_kernel (2 ^ 64 - 10) (jiffies wrapping_kernel 63)).
Proof.
  apply (expired_wrap_safe wrapping_kernel (2 ^ 64 - 10) 63);
    vm_compute; done.
Defined.

Lemma iteration_events (b : list event) :
  iteration b -> Forall select_event b.
Proof.
  intros [rp ?|rp ? ? ?|rp wp ? ? ?]; repeat apply Forall_cons_2;
    try apply Forall_nil_2; unfold select_event; eauto 6.
Qed.

(** X10.  A call of [pca9641_select_chan] issues nothing but reads of
    CONTROL, block writes of the request, [udelay(0)] and [msleep(1)],
    whatever [select_timeout] held on entry.  In particular it issues
    no byte write, so it never writes 0x00 to CONTROL: a call that times
    out or fails leaves its request standing. *)
Theorem select_issues_only (fuel : nat) (k : kernel) (chan : Z)
    (s s' : state) (r : Z) :
  pca9641_select_chan fuel k chan s = Some (r, s') ->
  Forall select_event (new_events s s') /\
  forall (command val : Z) (rp : smbus_reply),
    ~ In (Xfer (WriteByteData command val) rp) (new_events s s').
Proof.
  unfold pca9641_select_chan. cbn [read_jiffies]. intros Hrun.
  apply select_loop_iterations in Hrun as (blocks & Hl & Hf & _ & _).
  cbn [bus_log] in Hl. rewrite (new_events_app s s' _ Hl).
  assert (Forall select_event (concat blocks)) as Hall.
  { apply Forall_concat. eapply Forall_impl; [exact Hf|].
    intros b. apply iteration_events. }
  split; [exact Hall|].
  intros command val rp0 Hin. rewrite Forall_forall in Hall.
  apply list_elem_of_In, Hall in Hin.
  destruct Hin as [?|[?|(rp & [?|?])]]; done.
Qed.

Lemma select_issues_only_witness :
  let s' :=
    {| select_timeout := SELECT_DELAY_LONG;
       xfers := 4; ticks := 3;
       bus_log :=
         [Xfer read_contr (ack 0x00);
          Xfer write_request (ack 0x00); Udelay 0;
          Xfer read_contr (ack 0x01); Msleep 1;
          Xfer read_contr (nack (-6))] |} in
  Forall select_event (new_events (with_select_timeout 500 fresh_state) s') /\
  forall (command val : Z) (rp : smbus_reply),
    ~ In (Xfer (WriteByteData command val) rp)
         (new_events (with_select_timeout 500 fresh_state) s').
Proof.
  cbv zeta.
  apply (select_issues_only 3 contended_then_fault 0
           (with_select_timeout 500 fresh_state) _ (-6)).
  reflexivity.
Defined.

Lemma arbitrate_keeps_retry_delay (k : kernel) (s : state) :
  select_timeout (snd (pca9641_arbitrate k s)) = select_timeout s \/
  retry_delay (select_timeout (snd (pca9641_arbitrate k s))).
Proof.
  rewrite arbitrate_cases. cbv zeta.
  destruct (_ <? 0); [by left|]. destruct (connected _); [by left|].
  destruct (requested _); right; [by right | by left].
Qed.

Lemma select_loop_keeps_retry_delay (k : kernel) (timeout : Z) :
  forall (fuel : nat) (s s' : state) (r : Z),
    select_loop fuel k timeout s = Some (r, s') ->
    select_timeout s' = select_timeout s \/ retry_delay (select_timeout s').
Proof.
  induction fuel as [|fuel IH]; intros s s' r; [done|].
  cbn [select_loop].
  pose proof (select_body_outcome k s) as B. cbv zeta in B.
  destruct (select_body k s) as [[r0|] s1].
  - destruct B as [-> _]. intros [= <- <-]. by left.
  - destruct B as (_ & Hd & _). cbn [read_jiffies].
    destruct (time_after_eq _ _ _).
    + intros Hrun. apply IH in Hrun as [Hrun|Hrun]; [|by right].
      right. rewrite Hrun. exact Hd.
    + intros [= <- <-]. by right.
Qed.

(** X11.  The driver stores nothing in [select_timeout] but
    [SELECT_DELAY_SHORT] and [SELECT_DELAY_LONG]: if the field holds one
    of the two, it still does after any call of [pca9641_arbitrate],
    [pca9641_select_chan] or [pca9641_release_chan]. *)
Theorem retry_delay_kept (fuel : nat) (k : kernel) (chan : Z) (s : state) :
  retry_delay (select_timeout s) ->
  retry_delay (select_timeout (snd (pca9641_arbitrate k s))) /\
  retry_delay (select_timeout (snd (pca9641_release_chan k chan s))) /\
  (forall (r : Z) (s' : state),
     pca9641_select_chan fuel k chan s = Some (r, s') ->
     retry_delay (select_timeout s')).
Proof.
  intros Hd. split; [|split].
  - destruct (arbitrate_keeps_retry_delay k s) as [->|?]; done.
  - exact Hd.
  - intros r s'. unfold pca9641_select_chan. cbn [read_jiffies].
    intros Hrun. apply select_loop_keeps_retry_delay in Hrun as [->|?]; done.
Qed.

Lemma retry_delay_kept_witness :
  retry_delay (select_timeout (snd (pca9641_arbitrate (steady_kernel 0x01) fresh_state))) /\
  retry_delay
    (select_timeout (snd (pca9641_release_chan (steady_kernel 0x01) 0 fresh_state))) /\
  (forall (r : Z) (s' : state),
     pca9641_select_chan 70 (steady_kernel 0x01) 0 fresh_state = Some (r, s') ->
     retry_delay (select_timeout s')).
Proof.
  apply (retry_delay_kept 70 (steady_kernel 0x01) 0 fresh_state).
  left. reflexivity.
Defined.

(** X12.  When the first read of CONTROL in a call of
    [pca9641_select_chan] shows the bus connected, the call returns 0
    after that one read, with no write and no delay, and without
    consulting the clock again: it does so even if the deadline has
    already passed, and so selecting again while the bus is held is
    harmless. *)
Theorem select_when_connected (fuel : nat) (k : kernel) (chan : Z)
    (s : state) (v : Z) :
  0 <= v < 256 ->
  smbus_xfer k (xfers s) read_contr = ack v ->
  connected v = true ->
  pca9641_select_chan (S fuel) k chan s =
  Some (0, after_xfer read_contr (ack v) (snd (read_jiffies k s))).
Proof.
  intros Hv Hrd C. unfold pca9641_select_chan.
  destruct (read_jiffies k s) as [j s0] eqn:J.
  assert (xfers s0 = xfers s) as X by (by injection J as _ <-).
  rewrite <- X in Hrd. cbn [select_loop snd].
  rewrite select_body_eq, (arbitrate_ack k s0 v Hv Hrd). cbv zeta.
  rewrite C. reflexivity.
Qed.

Lemma select_when_connected_witness :
  pca9641_select_chan 1 (steady_kernel 0x07) 0 fresh_state =
  Some (0, after_xfer read_contr (ack 0x07)
             (snd (read_jiffies (steady_kernel 0x07) fresh_state))).
Proof.
  apply (select_when_connected 0 (steady_kernel 0x07) 0 fresh_state 0x07);
    [lia | reflexivity | reflexivity].
Defined.

(** * Probe *)

(** X13.  [pca9641_probe] touches the bus only after the capability
    check has passed, and then exactly once: a byte write of 0x00 to
    CONTROL, issued between taking and dropping the segment lock.  The
    lock is dropped on every path, before anything else is done; without
    the capability nothing happens at all. *)
Theorem probe_releases_under_lock (k : kernel) (c : i2c_core) (s : state) :
  let '(r, s', tr) := pca9641_probe k c s in
  let rp := smbus_xfer k (xfers s) (WriteByteData PCA9641_CONTR 0x00) in
  (has_byte_data c = false -> r = - ENODEV c /\ s' = s /\ tr = []) /\
  (has_byte_data c = true ->
   new_events s s' = [Xfer (WriteByteData PCA9641_CONTR 0x00) rp] /\
   exists rest,
     tr = LockSegment :: OnBus (Xfer (WriteByteData PCA9641_CONTR 0x00) rp)
            :: UnlockSegment :: rest /\
     probe_count is_bus_access rest = 0%nat /\
     probe_count is_locking rest = 0%nat).
Proof.
  unfold pca9641_probe. destruct (has_byte_data c); cbn [negb].
  2:{ split; [done|]. done. }
  set (rp := smbus_xfer k (xfers s) (WriteByteData PCA9641_CONTR 0x00)).
  change (pca9641_release_bus k s) with
    (tt, after_xfer (WriteByteData PCA9641_CONTR 0x00) rp s).
  set (s1 := after_xfer (WriteByteData PCA9641_CONTR 0x00) rp s).
  assert (new_events s s1 = [Xfer (WriteByteData PCA9641_CONTR 0x00) rp]) as Hn
    by (by apply new_events_app).
  cbv beta iota zeta. rewrite Hn.
  destruct (mux_alloc c) as [d|]; [destruct (negb (mux_add_adapter c =? 0))|];
    (split; [done|]); intros _;
    (split; [by apply new_events_app|]);
    eexists; (split; [reflexivity|]); split; reflexivity.
Qed.

(** X14.  The result of [pca9641_probe] does not depend on the chip:
    whatever the write of 0x00 to CONTROL reports, success or failure,
    probe goes on and returns the same value.  With [ENODEV] and
    [ENOMEM] nonzero it returns 0 exactly when the adapter has the
    capability, the mux core was allocated and the downstream adapter
    was added; a failure to add the adapter is returned as it is. *)
Theorem probe_result (k : kernel) (c : i2c_core) (s : state) :
  ENODEV c <> 0 -> ENOMEM c <> 0 ->
  (forall (k' : kernel) (s0 : state),
     fst (fst (pca9641_probe k' c s0)) = fst (fst (pca9641_probe k c s))) /\
  (fst (fst (pca9641_probe k c s)) = 0 <->
   has_byte_data c = true /\ is_Some (mux_alloc c) /\ mux_add_adapter c = 0) /\
  (has_byte_data c = true -> is_Some (mux_alloc c) ->
   fst (fst (pca9641_probe k c s)) = mux_add_adapter c).
Proof.
  intros Hnodev Hnomem.
  assert (forall k' s0,
            fst (fst (pca9641_probe k' c s0)) =
            if negb (has_byte_data c) then - ENODEV c
            else match mux_alloc c with
                 | None => - ENOMEM c
                 | Some _ => mux_add_adapter c
                 end) as Hcode.
  { intros k' s0. unfold pca9641_probe.
    destruct (has_byte_data c); cbn [negb]; [|reflexivity].
    destruct (pca9641_release_bus k' s0) as [u s1]. cbv zeta.
    destruct (mux_alloc c); [|reflexivity].
    destruct (Z.eqb_spec (mux_add_adapter c) 0) as [->|?]; reflexivity. }
  split; [intros k' s0; by rewrite !Hcode|].
  rewrite Hcode.
  destruct (has_byte_data c); cbn [negb].
  2:{ split; [split; [lia | by intros (? & _)] | by intros ?]. }
  destruct (mux_alloc c) as [d|].
  - split; [|done]. split; [done | by intros (_ & _ & ?)].
  - split; [|by intros _ [? ?]].
    split; [lia | by intros (_ & [? ?] & _)].
Qed.

Lemma probe_result_witness :
  (forall (k' : kernel) (s0 : state),
     fst (fst (pca9641_probe k' willing_core s0)) =
     fst (fst (pca9641_probe write_fault_kernel willing_core fresh_state))) /\
  (fst (fst (pca9641_probe write_fault_kernel willing_core fresh_state)) = 0 <->
   has_byte_data willing_core = true /\ is_Some (mux_alloc willing_core) /\
   mux_add_adapter willing_core = 0) /\
  (has_byte_data willing_core = true -> is_Some (mux_alloc willing_core) ->
   fst (fst (pca9641_probe write_fault_kernel willing_core fresh_state)) =
   mux_add_adapter willing_core).
Proof.
  apply (probe_result write_fault_kernel willing_core fresh_state); cbn; lia.
Defined.

(** A run across the wrap of the tick counter: entered ten ticks before
    the counter wraps, with LOCK_REQ alone at every poll, the call still
    polls 63 times and then returns -ETIMEDOUT. *)
Example select_times_out_across_wrap :
  run_summary (pca9641_select_chan 63 wrapping_kernel 0 fresh_state) =
    Some (-110, 63%nat, 0%nat, SELECT_DELAY_LONG) /\
  pca9641_select_chan 62 wrapping_kernel 0 fresh_state = None.
Proof. split; vm_compute; reflexivity. Qed.
